(** * Web_Scraper_App: the extraction and fallback engine of [app.py]

    A shallow embedding of [app.py] (the Flask handlers of the scraper and the
    helpers they call) and the properties of its natural-language
    specification.

    Conventions of the embedding.
    - A Python [str] is a [pystr], a sequence of code points.  A code point is
      a character below 256, a lone surrogate (U+D800 to U+DFFF, as a JSON
      escape such as "\ud800" brings in), or a symbol above 255 that is
      printable, has no case and is not white space, such as the pictographs
      of the program's messages.  The
      functions on characters ([py_isspace], [py_lower_char],
      [py_isprintable]) are Python's on these.
    - A JSON value received in a request body, and every value an element
      lookup can hand back, is a [py_value].
    - A JSON object (a Python [dict]) is a [gmap pystr py_value].
    - What lies outside the program (the network, the HTML parser, the
      browser, the clock) is a [world]: one oracle per call the program makes
      on it; every call that can raise in Python can raise here.
    - Handlers run in a state-and-exception monad [M] whose state records the
      calls made on the world and the browser sessions that are alive.
    - [print] writes to a console that encodes in UTF-8: the text written is
      not kept, but the call raises when the text cannot be encoded. *)

From Stdlib Require Import ZArith NArith Ascii String List Bool Lia.
From Stdlib Require Import Numbers.DecimalString Numbers.DecimalZ Numbers.DecimalPos.
From stdpp Require Import base option list strings gmap.

Local Open Scope Z_scope.

(** ** Python strings *)

(** [Latin1 c] is the character of code [c]; [Surrogate n] is the lone
    surrogate of code 55296 + n mod 2048; [Symbol n] stands for a code point
    above 255 that is printable and is neither cased, nor white space, nor a
    surrogate. *)
Inductive py_char : Type :=
| Latin1 (c : ascii)
| Surrogate (n : N)
| Symbol (n : N).

Inductive pystr : Type :=
| EmptyStr
| Str (c : py_char) (s : pystr).

(** String literals: every byte of the literal is the character of that
    code. *)
Fixpoint of_bytes (l : list Byte.byte) : pystr :=
  match l with
  | [] => EmptyStr
  | b :: l' => Str (Latin1 (ascii_of_byte b)) (of_bytes l')
  end.

Fixpoint to_bytes (s : pystr) : option (list Byte.byte) :=
  match s with
  | EmptyStr => Some []
  | Str (Latin1 c) s' => option_map (cons (byte_of_ascii c)) (to_bytes s')
  | Str _ _ => None
  end.

Declare Scope pystr_scope.
Delimit Scope pystr_scope with py.
Bind Scope pystr_scope with pystr.
String Notation pystr of_bytes to_bytes : pystr_scope.
Open Scope pystr_scope.

(** [a + b] on strings *)
Fixpoint append (a b : pystr) : pystr :=
  match a with
  | EmptyStr => b
  | Str c a' => Str c (append a' b)
  end.

Notation "a +:+ b" := (append a b) (at level 60, right associativity) : pystr_scope.

#[export] Instance py_char_eq_dec : EqDecision py_char.
Proof. solve_decision. Defined.

#[export] Instance pystr_eq_dec : EqDecision pystr.
Proof. solve_decision. Defined.

Fixpoint chars (s : pystr) : list (ascii + N + N) :=
  match s with
  | EmptyStr => []
  | Str (Latin1 c) s' => inl (inl c) :: chars s'
  | Str (Surrogate n) s' => inl (inr n) :: chars s'
  | Str (Symbol n) s' => inr n :: chars s'
  end.

Fixpoint of_chars (l : list (ascii + N + N)) : pystr :=
  match l with
  | [] => EmptyStr
  | inl (inl c) :: l' => Str (Latin1 c) (of_chars l')
  | inl (inr n) :: l' => Str (Surrogate n) (of_chars l')
  | inr n :: l' => Str (Symbol n) (of_chars l')
  end.

#[export] Instance pystr_countable : Countable pystr.
Proof.
  apply (inj_countable' chars of_chars).
  induction x as [|[]]; simpl; congruence.
Defined.

(** From and to the strings of the standard library, which hold characters
    below 256 only. *)
Fixpoint of_string (s : string) : pystr :=
  match s with
  | EmptyString => EmptyStr
  | String c s' => Str (Latin1 c) (of_string s')
  end.

Fixpoint to_string (s : pystr) : option string :=
  match s with
  | EmptyStr => Some EmptyString
  | Str (Latin1 c) s' => option_map (String c) (to_string s')
  | Str _ _ => None
  end.

Definition char_in (lo hi : N) (c : ascii) : bool :=
  ((lo <=? N_of_ascii c) && (N_of_ascii c <=? hi))%N.

(** [str.isspace] on one character: TAB..CR, FS..US, space, NEL, NBSP. *)
Definition py_isspace (c : py_char) : bool :=
  match c with
  | Latin1 a => char_in 9 13 a || char_in 28 32 a || char_in 133 133 a || char_in 160 160 a
  | Surrogate _ | Symbol _ => false
  end.

Fixpoint lstrip (s : pystr) : pystr :=
  match s with
  | EmptyStr => EmptyStr
  | Str c s' => if py_isspace c then lstrip s' else s
  end.

Fixpoint rstrip (s : pystr) : pystr :=
  match s with
  | EmptyStr => EmptyStr
  | Str c s' =>
      match rstrip s' with
      | EmptyStr => if py_isspace c then EmptyStr else Str c EmptyStr
      | r => Str c r
      end
  end.

(** [s.strip()] *)
Definition strip (s : pystr) : pystr := rstrip (lstrip s).

(** [str.lower] on one character: A..Z and the Latin-1 capitals. *)
Definition py_lower_char (c : py_char) : py_char :=
  match c with
  | Latin1 a =>
      if char_in 65 90 a || char_in 192 214 a || char_in 216 222 a
      then Latin1 (ascii_of_N (N_of_ascii a + 32))
      else c
  | Surrogate _ | Symbol _ => c
  end.

Fixpoint py_lower (s : pystr) : pystr :=
  match s with
  | EmptyStr => EmptyStr
  | Str c s' => Str (py_lower_char c) (py_lower s')
  end.

(** [sep.join(parts)] *)
Fixpoint join (sep : pystr) (parts : list pystr) : pystr :=
  match parts with
  | [] => EmptyStr
  | [p] => p
  | p :: rest => p +:+ sep +:+ join sep rest
  end.

Definition is_empty (s : pystr) : bool :=
  match s with EmptyStr => true | Str _ _ => false end.

Definition is_char (a : ascii) (c : py_char) : bool :=
  match c with Latin1 b => Ascii.eqb a b | _ => false end.

Fixpoint contains_char (a : ascii) (s : pystr) : bool :=
  match s with
  | EmptyStr => false
  | Str d s' => is_char a d || contains_char a s'
  end.

(** *** [repr] of a string, as [str] of a list shows its items *)

Definition squote : ascii := "039"%char.
Definition dquote : ascii := "034"%char.
Definition backslash : ascii := "092"%char.

Definition hex_digit (n : N) : py_char :=
  Latin1 (if (n <? 10)%N then ascii_of_N (48 + n) else ascii_of_N (87 + n)).

(** [\xNN] *)
Definition hex_escape (c : ascii) : pystr :=
  Str (Latin1 backslash) (Str (Latin1 "x")
    (Str (hex_digit (N_of_ascii c / 16)) (Str (hex_digit (N_of_ascii c mod 16)) EmptyStr))).

(** The code point of a lone surrogate. *)
Definition surrogate_code (n : N) : N := (55296 + n mod 2048)%N.

(** Four hexadecimal digits. *)
Definition hex4 (n : N) : pystr :=
  Str (hex_digit (n / 4096 mod 16)) (Str (hex_digit (n / 256 mod 16))
    (Str (hex_digit (n / 16 mod 16)) (Str (hex_digit (n mod 16)) EmptyStr))).

(** [\uNNNN] *)
Definition surrogate_escape (n : N) : pystr :=
  Str (Latin1 backslash) (Str (Latin1 "u") (hex4 (surrogate_code n))).

(** [str.isprintable] on one character outside the C0 controls. *)
Definition py_isprintable (c : ascii) : bool :=
  negb (char_in 127 160 c || char_in 173 173 c).

Definition repr_latin1 (quote c : ascii) : pystr :=
  if Ascii.eqb c quote || Ascii.eqb c backslash then Str (Latin1 backslash) (Str (Latin1 c) EmptyStr)
  else if Ascii.eqb c "009"%char then Str (Latin1 backslash) "t"
  else if Ascii.eqb c "010"%char then Str (Latin1 backslash) "n"
  else if Ascii.eqb c "013"%char then Str (Latin1 backslash) "r"
  else if char_in 0 31 c then hex_escape c
  else if py_isprintable c then Str (Latin1 c) EmptyStr
  else hex_escape c.

Definition repr_char (quote : ascii) (c : py_char) : pystr :=
  match c with
  | Latin1 a => repr_latin1 quote a
  | Surrogate n => surrogate_escape n
  | Symbol _ => Str c EmptyStr
  end.

Fixpoint repr_chars (quote : ascii) (s : pystr) : pystr :=
  match s with
  | EmptyStr => EmptyStr
  | Str c s' => repr_char quote c +:+ repr_chars quote s'
  end.

Definition py_repr (s : pystr) : pystr :=
  let quote :=
    if contains_char squote s && negb (contains_char dquote s) then dquote else squote in
  Str (Latin1 quote) (repr_chars quote s) +:+ Str (Latin1 quote) EmptyStr.

(** ** Python values *)

Inductive py_value : Type :=
| PyNone
| PyBool (b : bool)
| PyInt (n : Z)
| PyStr (s : pystr)
| PyList (items : list pystr).

(** [str(n)] of an integer: its decimal numeral. *)
Definition int_str (n : Z) : pystr := of_string (NilZero.string_of_int (Z.to_int n)).

(** [str(v)], which is also what an f-string shows for [v]. *)
Definition py_str (v : py_value) : pystr :=
  match v with
  | PyNone => "None"
  | PyBool true => "True"
  | PyBool false => "False"
  | PyInt n => int_str n
  | PyStr s => s
  | PyList items => "[" +:+ join ", " (map py_repr items) +:+ "]"
  end.

(** Truth value of [v], as [if v:] and [not v] take it. *)
Definition truthy (v : py_value) : bool :=
  match v with
  | PyNone => false
  | PyBool b => b
  | PyInt n => negb (n =? 0)
  | PyStr s => negb (is_empty s)
  | PyList items => match items with [] => false | _ => true end
  end.

(** [d.get(key)] and [d.get(key, default)] *)
Definition dict_get (d : gmap pystr py_value) (key : pystr) : py_value :=
  default PyNone (d !! key).

Definition dict_get_default (d : gmap pystr py_value) (key : pystr) (dflt : py_value)
  : py_value :=
  default dflt (d !! key).

(** ** Exceptions *)

(** The exception classes the handlers tell apart.  [TimeoutException] is a
    subclass of [WebDriverException]; every class is a subclass of
    [Exception]. *)
Inductive exn_class : Type :=
| RequestException
| WebDriverException
| TimeoutException
| OtherException.

Record exn : Type := MkExn { exn_type : exn_class; exn_str : pystr }.

(** [except requests.RequestException] *)
Definition is_request_exception (e : exn) : bool :=
  match exn_type e with RequestException => true | _ => false end.

(** [except WebDriverException] *)
Definition is_webdriver_exception (e : exn) : bool :=
  match exn_type e with WebDriverException | TimeoutException => true | _ => false end.

(** [except TimeoutException] *)
Definition is_timeout_exception (e : exn) : bool :=
  match exn_type e with TimeoutException => true | _ => false end.

Inductive outcome (A : Type) : Type :=
| Return (a : A)
| Raise (e : exn).
Arguments Return {A} a.
Arguments Raise {A} e.

#[export] Instance outcome_ret : MRet outcome := @Return.
#[export] Instance outcome_bind : MBind outcome := fun A B f m =>
  match m with
  | Return a => f a
  | Raise e => Raise e
  end.

Definition type_name (v : py_value) : pystr :=
  match v with
  | PyNone => "NoneType"
  | PyBool _ => "bool"
  | PyInt _ => "int"
  | PyStr _ => "str"
  | PyList _ => "list"
  end.

Definition AttributeError (v : py_value) (name : pystr) : exn :=
  MkExn OtherException
    ("'" +:+ type_name v +:+ "' object has no attribute '" +:+ name +:+ "'").

(** [v.lower()]: only a [str] has the method. *)
Definition lower (v : py_value) : outcome pystr :=
  match v with
  | PyStr s => Return (py_lower s)
  | _ => Raise (AttributeError v "lower")
  end.

(** ** [print] *)

Definition is_surrogate (c : py_char) : bool :=
  match c with Surrogate _ => true | _ => false end.

Fixpoint has_surrogate (s : pystr) : bool :=
  match s with
  | EmptyStr => false
  | Str c s' => is_surrogate c || has_surrogate s'
  end.

(** The number of surrogates a string starts with. *)
Fixpoint surrogate_run (s : pystr) : nat :=
  match s with
  | Str (Surrogate _) s' => S (surrogate_run s')
  | _ => 0%nat
  end.

(** What the UTF-8 encoder says of a text, given the position [start] of the
    first surrogate, which the rest [s] of the text begins with. *)
Definition cannot_encode (start : nat) (s : pystr) : pystr :=
  match s with
  | Str (Surrogate n) s' =>
      match surrogate_run s' with
      | O =>
          "'utf-8' codec can't encode character '" +:+ surrogate_escape n
            +:+ "' in position " +:+ int_str (Z.of_nat start)
            +:+ ": surrogates not allowed"
      | S more =>
          "'utf-8' codec can't encode characters in position "
            +:+ int_str (Z.of_nat start) +:+ "-" +:+ int_str (Z.of_nat (start + S more))
            +:+ ": surrogates not allowed"
      end
  | _ => EmptyStr
  end.

(** The message of the [UnicodeEncodeError] for [s], met at position [pos] of
    the text. *)
Fixpoint encode_error_message (pos : nat) (s : pystr) : pystr :=
  match s with
  | EmptyStr => EmptyStr
  | Str c s' => if is_surrogate c then cannot_encode pos s else encode_error_message (S pos) s'
  end.

Definition UnicodeEncodeError (text : pystr) : exn :=
  MkExn OtherException (encode_error_message 0 text).

(** [print(text)]: the text is encoded for the console, and a lone surrogate
    cannot be. *)
Definition print (text : pystr) : outcome unit :=
  if has_surrogate text then Raise (UnicodeEncodeError text) else Return tt.

(** ** Matched elements *)

(** A tag of the parsed static tree: the text nodes below it, in document
    order, and its attribute dictionary (a multi-valued attribute such as
    [class] holds a list). *)
Record Tag : Type := MkTag {
  tag_strings : list pystr;
  tag_attrs : gmap pystr py_value
}.

(** [tag.get_text(strip=True)]: every text node stripped, the empty ones
    dropped, the rest concatenated. *)
Definition get_text_strip (t : Tag) : pystr :=
  join "" (filter (fun s => is_empty s = false) (map strip (tag_strings t))).

(** [tag.text] *)
Definition tag_text (t : Tag) : pystr := join "" (tag_strings t).

(** [tag.get(name)] *)
Definition tag_get (t : Tag) (name : pystr) : py_value := dict_get (tag_attrs t) name.

(** An element of a live browser document: each accessor is a command sent
    to the browser and may raise. *)
Record WebElement : Type := MkWebElement {
  text : outcome pystr;
  get_attribute : pystr -> outcome py_value;
  get_property : pystr -> outcome py_value
}.

Inductive element : Type :=
| BsTag (t : Tag)
| SeElement (e : WebElement).

Definition TypeError_not_callable : exn :=
  MkExn OtherException "'NoneType' object is not callable".

Definition WebElement_has_no (name : pystr) : exn :=
  MkExn OtherException ("'WebElement' object has no attribute '" +:+ name +:+ "'").

(** The accessors [extract_data_from_elements] calls, on either kind of
    element: a tag answers [el.text], [el.get_text] and [el.get]; on a tag
    [el.get_attribute] is a child lookup that finds nothing, and calling it
    raises; a browser element has neither [get_text] nor [get]. *)
Definition el_text (el : element) : outcome pystr :=
  match el with
  | BsTag t => Return (tag_text t)
  | SeElement e => text e
  end.

Definition el_get_attribute (el : element) (name : pystr) : outcome py_value :=
  match el with
  | BsTag _ => Raise TypeError_not_callable
  | SeElement e => get_attribute e name
  end.

Definition el_get_property (el : element) (name : pystr) : outcome py_value :=
  match el with
  | BsTag _ => Raise TypeError_not_callable
  | SeElement e => get_property e name
  end.

Definition el_get_text_strip (el : element) : outcome pystr :=
  match el with
  | BsTag t => Return (get_text_strip t)
  | SeElement _ => Raise (WebElement_has_no "get_text")
  end.

Definition el_get (el : element) (name : pystr) : outcome py_value :=
  match el with
  | BsTag t => Return (tag_get t name)
  | SeElement _ => Raise (WebElement_has_no "get")
  end.

(** ** [extract_data_from_elements] *)

Record result_item : Type := MkItem { value : pystr; index : nat }.

(** Lines 45-64: the value looked up on one element. *)
Definition lookup_value (method : pystr) (attribute : py_value) (el : element)
  : outcome py_value :=
  if decide (method = "selenium") then
    name ← lower attribute;
    if decide (name = "text content") then
      t ← el_text el; mret (PyStr (strip t))
    else
      v ← el_get_attribute el name;
      if negb (truthy v) then el_get_property el name else mret v
  else
    name ← lower attribute;
    if decide (name = "text content") then
      t ← el_get_text_strip el; mret (PyStr t)
    else
      v ← el_get el name;
      match v with
      | PyList tokens => if decide (name = "class") then mret (PyStr (join " " tokens)) else mret v
      | _ => mret v
      end.

(** Lines 66-81: the [value] field recorded for what the lookup gave. *)
Definition recorded_value (attribute : py_value) (v : py_value) : pystr :=
  match v with
  | PyNone => "[No " +:+ py_str attribute +:+ " attribute]"
  | _ =>
      let value_str := strip (py_str v) in
      if is_empty value_str then "[Empty " +:+ py_str attribute +:+ "]" else value_str
  end.

(** Lines 83-88: the [value] field recorded when the [try] block raised. *)
Definition error_value (attribute : py_value) : pystr :=
  "[Error extracting " +:+ py_str attribute +:+ "]".

(** The value of the record made for one element when its lookup ends: the
    one of the [try] block when the lookup returns, the one of the [except]
    clause when it raises. *)
Definition resolve (method : pystr) (attribute : py_value) (el : element) : pystr :=
  match lookup_value method attribute el with
  | Return v => recorded_value attribute v
  | Raise _ => error_value attribute
  end.

(** Lines 74 and 81: what is printed after the record is appended. *)
Definition diagnostic (attribute : py_value) (v : py_value) : pystr :=
  match v with
  | PyNone =>
      Str (Symbol 9888) (Str (Symbol 65039)
        (" No " +:+ py_str attribute +:+ " attribute found"))
  | _ =>
      Str (Symbol 9989)
        (" Extracted " +:+ py_str attribute +:+ ": '" +:+ strip (py_str v) +:+ "'")
  end.

(** Line 84: what is printed before the error record is appended. *)
Definition error_diagnostic (attribute : py_value) (e : exn) : pystr :=
  Str (Symbol 9888) (Str (Symbol 65039)
    (" Error extracting " +:+ py_str attribute +:+ " from element: " +:+ exn_str e)).

(** [results.append({"value": v, "index": len(results) + 1})] *)
Definition append_record (results : list result_item) (v : pystr) : list result_item :=
  results ++ [ {| value := v; index := length results + 1 |} ].

(** The [try] block on one element: how it ends, and the list as it leaves
    it.  The record is appended before the diagnostic is printed, so it stays
    in the list when the print raises. *)
Definition try_block (method : pystr) (attribute : py_value)
    (results : list result_item) (el : element) : outcome unit * list result_item :=
  match lookup_value method attribute el with
  | Return v =>
      (print (diagnostic attribute v), append_record results (recorded_value attribute v))
  | Raise e => (Raise e, results)
  end.

(** One turn of the loop: the [try] block and, when it raises, the [except]
    clause, whose print comes before its append and is not guarded. *)
Definition extract_step (method : pystr) (attribute : py_value)
    (results : list result_item) (el : element) : outcome unit * list result_item :=
  match try_block method attribute results el with
  | (Return _, results) => (Return tt, results)
  | (Raise e, results) =>
      match print (error_diagnostic attribute e) with
      | Return _ => (Return tt, append_record results (error_value attribute))
      | Raise e' => (Raise e', results)
      end
  end.

(** [for el in elements: ...], from the list [results] on; an exception that
    leaves a turn leaves the loop. *)
Fixpoint extract_loop (method : pystr) (attribute : py_value)
    (elements : list element) (results : list result_item)
  : outcome (list result_item) :=
  match elements with
  | [] => Return results
  | el :: rest =>
      match extract_step method attribute results el with
      | (Return _, results) => extract_loop method attribute rest results
      | (Raise e, _) => Raise e
      end
  end.

Definition extract_data_from_elements (elements : list element) (attribute : py_value)
    (method : pystr) : outcome (list result_item) :=
  extract_loop method attribute elements [].

(** ** The world outside the program *)

(** What [requests.get] hands back. *)
Record http_response : Type := MkHttpResponse {
  status_code : Z;
  reason : pystr;
  response_url : pystr;
  response_text : pystr
}.

(** A parsed page: what a selector matches in it. *)
Record soup : Type := MkSoup {
  (** [soup.select(selector)] *)
  select : py_value -> outcome (list Tag)
}.

(** A started Chrome: what its commands answer on the page it is driven to. *)
Record browser : Type := MkBrowser {
  (** [driver.get(url)] *)
  driver_get : py_value -> outcome unit;
  (** [WebDriverWait(driver, wait_time).until(presence_of_all_elements_located(
      (By.CSS_SELECTOR, selector)))]; raises [TimeoutException] when nothing
      matched in time *)
  wait_until : py_value -> py_value -> outcome unit;
  (** [driver.find_elements(By.CSS_SELECTOR, selector)] *)
  find_elements : py_value -> outcome (list WebElement)
}.

(** The calls made on the world, in the order they were made. *)
Inductive event : Type :=
| HttpGet (url : py_value)
| DriverInstall
| ChromeStart (arguments : list pystr)
| DriverGet (session : nat) (url : py_value)
| WaitUntil (session : nat) (wait_time selector : py_value)
| Sleep (seconds : Z)
| FindElements (session : nat) (selector : py_value)
| DriverQuit (session : nat).

Record world : Type := MkWorld {
  (** [requests.get(url, headers=headers, timeout=15)] *)
  requests_get : py_value -> outcome http_response;
  (** [BeautifulSoup(text, "html.parser")] *)
  BeautifulSoup : pystr -> outcome soup;
  (** [ChromeDriverManager().install()] *)
  driver_install : outcome pystr;
  (** [webdriver.Chrome(service=service, options=chrome_options)], from the
      arguments added to the options *)
  webdriver_Chrome : list pystr -> outcome browser;
  (** [time.time()] in hundredths of a second, after the calls made so far *)
  time_time : list event -> Z
}.

(** ** The monad of the handlers *)

(** The calls made so far and the browser sessions that are alive. *)
Record state : Type := MkState {
  calls : list event;
  sessions : gset nat
}.

Definition M (A : Type) : Type := state -> outcome A * state.

#[export] Instance M_ret : MRet M := fun A a s => (Return a, s).
#[export] Instance M_bind : MBind M := fun A B f m s =>
  match m s with
  | (Return a, s') => f a s'
  | (Raise e, s') => (Raise e, s')
  end.

Definition raise {A : Type} (e : exn) : M A := fun s => (Raise e, s).

(** A computation of the program that calls nothing outside. *)
Definition lift {A : Type} (o : outcome A) : M A := fun s => (o, s).

(** A call on the world: it is recorded, and answers what the world answers. *)
Definition perform {A : Type} (ev : event) (answer : outcome A) : M A :=
  fun s => (answer, MkState (calls s ++ [ev]) (sessions s)).

(** [try: body  except Exception as e: handler e] *)
Definition try_except {A : Type} (body : M A) (handler : exn -> M A) : M A :=
  fun s =>
    match body s with
    | (Return a, s') => (Return a, s')
    | (Raise e, s') => handler e s'
    end.

(** Runs [body] and hands back how it ended, for the clauses of a [try]
    statement to look at. *)
Definition attempt {A : Type} (body : M A) : M (outcome A) :=
  fun s => let '(o, s') := body s in (Return o, s').

Definition now (w : world) : M Z := fun s => (Return (time_time w (calls s)), s).

(** ** The handlers' answers *)

(** The JSON object a scraping handler answers with: the one of a success,
    or the one of a failure, which has neither results nor a count. *)
Inductive response : Type :=
| Success (results : list result_item) (method : pystr) (execution_time : Z)
    (total_found : nat)
| Failure (error : pystr) (method : pystr).

(** [r.get("success")] *)
Definition get_success (r : response) : bool :=
  match r with Success _ _ _ _ => true | Failure _ _ => false end.

(** [r.get("total_found", 0)] *)
Definition get_total_found (r : response) : nat :=
  match r with Success _ _ _ n => n | Failure _ _ => 0%nat end.

Definition get_results (r : response) : list result_item :=
  match r with Success rs _ _ _ => rs | Failure _ _ => [] end.

Definition get_method (r : response) : pystr :=
  match r with Success _ m _ _ => m | Failure _ m => m end.

(** [r["method"] = label] *)
Definition set_method (r : response) (label : pystr) : response :=
  match r with
  | Success rs _ t n => Success rs label t n
  | Failure err _ => Failure err label
  end.

(** ** [scrape_beautifulsoup] *)

(** [response.raise_for_status()] *)
Definition raise_for_status (r : http_response) : outcome unit :=
  let describe kind :=
    MkExn RequestException
      (int_str (status_code r) +:+ " " +:+ kind +:+ " Error: " +:+ reason r
         +:+ " for url: " +:+ response_url r) in
  if (400 <=? status_code r) && (status_code r <? 500) then Raise (describe "Client")
  else if (500 <=? status_code r) && (status_code r <? 600) then Raise (describe "Server")
  else Return tt.

(** Line 106: what the handler prints first. *)
Definition beautifulsoup_banner (url : py_value) : pystr :=
  Str (Symbol 127775) (" BeautifulSoup scraping: " +:+ py_str url).

Definition scrape_beautifulsoup (w : world) (data : gmap pystr py_value) : M response :=
  try_except
    (let url := dict_get data "url" in
     let selector := dict_get data "selector" in
     let attribute := dict_get_default data "attribute" (PyStr "Text Content") in
     _ ← lift (print (beautifulsoup_banner url));
     start_time ← now w;
     response ← perform (HttpGet url) (requests_get w url);
     _ ← lift (raise_for_status response);
     soup ← lift (BeautifulSoup w (response_text response));
     elements ← lift (if truthy selector then select soup selector else Return []);
     results ← lift (extract_data_from_elements (map BsTag elements) attribute
                       "beautifulsoup");
     end_time ← now w;
     mret (Success results "Beautiful Soup" (end_time - start_time) (length results)))
    (fun e =>
       if is_request_exception e
       then mret (Failure ("Network error: " +:+ exn_str e) "Beautiful Soup")
       else mret (Failure (exn_str e) "Beautiful Soup")).

(** ** [setup_chrome_driver] and [scrape_selenium] *)

(** The arguments added to the Chrome options, in order. *)
Definition chrome_arguments : list pystr :=
  [ "--headless=new";
    "--disable-gpu";
    "--no-sandbox";
    "--disable-dev-shm-usage";
    "--disable-extensions";
    "--disable-images";
    "--disable-javascript";
    "--window-size=1920,1080";
    "--user-agent=Mozilla/5.0 (Windows NT 10.0; Win64; x64) AppleWebKit/537.36" ].

(** A driver object: the session it holds and the browser behind it. *)
Record WebDriver : Type := MkWebDriver { session_id : nat; chrome : browser }.

(** A browser that starts opens a session nobody else holds. *)
Definition open_session (b : browser) : M WebDriver :=
  fun s =>
    let sid := fresh (sessions s) in
    (Return (MkWebDriver sid b), MkState (calls s) ({[ sid ]} ∪ sessions s)).

Definition setup_chrome_driver (w : world) : M WebDriver :=
  _ ← perform DriverInstall (driver_install w);
  b ← perform (ChromeStart chrome_arguments) (webdriver_Chrome w chrome_arguments);
  open_session b.

(** [driver.quit()]: the session ends; Chrome's driver swallows whatever goes
    wrong while it shuts down. *)
Definition driver_quit (driver : WebDriver) : M unit :=
  fun s =>
    (Return tt,
     MkState (calls s ++ [DriverQuit (session_id driver)])
             (sessions s ∖ {[ session_id driver ]})).

(** Line 159: what the handler prints first. *)
Definition selenium_banner (url : py_value) : pystr :=
  Str (Symbol 129302) (" Selenium scraping: " +:+ py_str url).

(** Line 171: what the handler prints when the wait times out. *)
Definition timeout_notice : pystr :=
  Str (Symbol 9888) (Str (Symbol 65039)
    " Timeout waiting for elements, proceeding anyway...").

(** Lines 163-187: what [scrape_selenium] does once it holds a driver. *)
Definition selenium_session (w : world) (driver : WebDriver)
    (url selector attribute wait_time : py_value) (start_time : Z) : M response :=
  let sid := session_id driver in
  _ ← perform (DriverGet sid url) (driver_get (chrome driver) url);
  _ ← try_except
        (perform (WaitUntil sid wait_time selector)
                 (wait_until (chrome driver) wait_time selector))
        (fun e => if is_timeout_exception e then lift (print timeout_notice) else raise e);
  _ ← perform (Sleep 2) (Return tt);
  selenium_elements ← perform (FindElements sid selector)
                              (find_elements (chrome driver) selector);
  results ← lift (extract_data_from_elements (map SeElement selenium_elements) attribute
                    "selenium");
  end_time ← now w;
  mret (Success results "Selenium" (end_time - start_time) (length results)).

(** The two [except] clauses of [scrape_selenium]. *)
Definition selenium_except (e : exn) : response :=
  if is_webdriver_exception e
  then Failure ("WebDriver error: " +:+ exn_str e) "Selenium"
  else Failure (exn_str e) "Selenium".

(** Lines 153-162: the [try] block up to the point where the local [driver]
    holds a driver; it is [None] until [setup_chrome_driver] has returned. *)
Definition selenium_start (w : world) (url : py_value) : M (Z * WebDriver) :=
  _ ← lift (print (selenium_banner url));
  start_time ← now w;
  driver ← setup_chrome_driver w;
  mret (start_time, driver).

(** The [finally] clause quits the driver exactly when [driver] holds one. *)
Definition scrape_selenium (w : world) (data : gmap pystr py_value) : M response :=
  let url := dict_get data "url" in
  let selector := dict_get data "selector" in
  let attribute := dict_get_default data "attribute" (PyStr "Text Content") in
  let wait_time := dict_get_default data "wait_time" (PyInt 10) in
  started ← attempt (selenium_start w url);
  match started with
  | Raise e => mret (selenium_except e)
  | Return (start_time, driver) =>
      ended ← attempt (selenium_session w driver url selector attribute wait_time start_time);
      _ ← driver_quit driver;
      mret (match ended with
            | Return r => r
            | Raise e => selenium_except e
            end)
  end.

(** ** [scrape_auto] *)

(** Line 210: what the handler prints first. *)
Definition auto_banner (url : py_value) : pystr :=
  Str (Symbol 128260) (" Auto scraping: " +:+ py_str url).

(** Line 220: what the handler prints before it falls back. *)
Definition fallback_notice : pystr :=
  Str (Symbol 9888) (Str (Symbol 65039)
    " Beautiful Soup found no results, trying Selenium...").

Definition scrape_auto (w : world) (data : gmap pystr py_value) : M response :=
  try_except
    (_ ← lift (print (auto_banner (dict_get data "url")));
     bs_data ← scrape_beautifulsoup w data;
     if get_success bs_data && (0 <? get_total_found bs_data)%nat
     then mret (set_method bs_data "Beautiful Soup (Auto)")
     else
       _ ← lift (print fallback_notice);
       selenium_data ← scrape_selenium w data;
       mret (set_method selenium_data "Selenium (Auto Fallback)"))
    (fun e => mret (Failure (exn_str e) "Auto")).

(** ** [export_csv] *)

(** *** The [csv.writer] of the handler: the excel dialect *)

Definition csv_special (c : py_char) : bool :=
  is_char "," c || is_char dquote c || is_char "013" c || is_char "010" c.

Fixpoint has_special (s : pystr) : bool :=
  match s with
  | EmptyStr => false
  | Str c s' => csv_special c || has_special s'
  end.

Fixpoint double_quotes (s : pystr) : pystr :=
  match s with
  | EmptyStr => EmptyStr
  | Str c s' =>
      if is_char dquote c then Str c (Str c (double_quotes s'))
      else Str c (double_quotes s')
  end.

(** The text of a cell: a string as it is, [None] as nothing, the rest
    through [str]. *)
Definition cell_text (v : py_value) : pystr :=
  match v with
  | PyNone => EmptyStr
  | _ => py_str v
  end.

Definition quoted (s : pystr) : pystr :=
  Str (Latin1 dquote) (double_quotes s) +:+ Str (Latin1 dquote) EmptyStr.

Definition csv_field (v : py_value) : pystr :=
  if has_special (cell_text v) then quoted (cell_text v) else cell_text v.

Definition crlf : pystr := Str (Latin1 "013") (Str (Latin1 "010") EmptyStr).

(** One record; a row that is a single empty cell is written quoted. *)
Definition csv_record (row : list py_value) : pystr :=
  match row with
  | [v] => (if is_empty (cell_text v) then quoted EmptyStr else csv_field v) +:+ crlf
  | _ => join "," (map csv_field row) +:+ crlf
  end.

(** [writer.writerow(row)] on the text written so far. *)
Definition writerow (row : list py_value) (output : pystr) : pystr :=
  output +:+ csv_record row.

(** *** The handler *)

(** The handler's answer: the CSV text and a file name, or an error. *)
Inductive export_response : Type :=
| Exported (csv_content filename : pystr)
| NotExported (error : pystr).

(** [if metadata.get(key): cells.append(cell)] *)
Definition append_if (metadata : gmap pystr py_value) (key : pystr) (cell : py_value)
    (cells : list py_value) : list py_value :=
  if truthy (dict_get metadata key) then cells ++ [cell] else cells.

(** Lines 277-285 *)
Definition csv_headers (metadata : gmap pystr py_value) : list py_value :=
  let headers := [PyStr "Index"; PyStr "Value"] in
  let headers := append_if metadata "url" (PyStr "Source URL") headers in
  let headers := append_if metadata "selector" (PyStr "CSS Selector") headers in
  let headers := append_if metadata "attribute" (PyStr "Attribute") headers in
  let headers := append_if metadata "method" (PyStr "Method") headers in
  headers.

(** Lines 291-299: the row of [item], met at position [i] of the enumeration. *)
Definition csv_row (metadata : gmap pystr py_value) (i : nat) (item : gmap pystr py_value)
  : list py_value :=
  let row := [PyInt (Z.of_nat i + 1); dict_get_default item "value" (PyStr "")] in
  let row := append_if metadata "url" (dict_get metadata "url") row in
  let row := append_if metadata "selector" (dict_get metadata "selector") row in
  let row := append_if metadata "attribute" (dict_get metadata "attribute") row in
  let row := append_if metadata "method" (dict_get metadata "method") row in
  row.

(** [for i, item in enumerate(results): ... writer.writerow(row)], from
    position [i] on. *)
Fixpoint write_rows (metadata : gmap pystr py_value) (i : nat)
    (results : list (gmap pystr py_value)) (output : pystr) : pystr :=
  match results with
  | [] => output
  | item :: rest => write_rows metadata (S i) rest (writerow (csv_row metadata i item) output)
  end.

(** [results] and [metadata] are [data.get("results", [])] and
    [data.get("metadata", {})]. *)
Definition export_csv (w : world) (results : list (gmap pystr py_value))
    (metadata : gmap pystr py_value) : M export_response :=
  try_except
    (match results with
     | [] => mret (NotExported "No data to export")
     | _ =>
         let output := EmptyStr in
         let output := writerow (csv_headers metadata) output in
         let output := write_rows metadata 0 results output in
         seconds ← now w;
         mret (Exported output
                 ("web_scraper_results_" +:+ int_str (seconds / 100) +:+ ".csv"))
     end)
    (fun e => mret (NotExported (exn_str e))).

(** ** [validate_url] *)

(** What [requests.head] hands back: the status and the headers, keyed by
    their names in lower case (the headers of a response are looked up
    without regard to case). *)
Record head_response : Type := MkHeadResponse {
  head_status : Z;
  head_headers : gmap pystr pystr
}.

(** The JSON object [validate_url] answers with. *)
Inductive validation : Type :=
| Valid (status_code : Z) (content_type : pystr)
| Invalid (error : pystr).

(** [requests_head] is [requests.head(url, timeout=5)]. *)
Definition validate_url (requests_head : py_value -> outcome head_response)
    (data : gmap pystr py_value) : validation :=
  let url := dict_get data "url" in
  match requests_head url with
  | Return response =>
      Valid (head_status response)
            (default "Unknown" (head_headers response !! "content-type"))
  | Raise e => Invalid (exn_str e)
  end.

(** ** Reading the record of calls *)

Fixpoint count_calls (p : event -> bool) (tr : list event) : nat :=
  match tr with
  | [] => 0%nat
  | ev :: tr' => ((if p ev then 1 else 0) + count_calls p tr')%nat
  end.

(** The static strategy is invoked once per [requests.get]: it is the first
    thing [scrape_beautifulsoup] asks of the world. *)
Definition is_http_get (ev : event) : bool :=
  match ev with HttpGet _ => true | _ => false end.

Definition static_invocations (tr : list event) : nat := count_calls is_http_get tr.

(** The rendered strategy is invoked once per driver installation: it is the
    first thing [scrape_selenium] asks of the world. *)
Definition is_driver_install (ev : event) : bool :=
  match ev with DriverInstall => true | _ => false end.

Definition rendered_invocations (tr : list event) : nat := count_calls is_driver_install tr.

(** What [scrape_selenium] does between starting the browser and quitting
    it: the commands it sends to the browser and the pause it takes. *)
Definition drives_browser (ev : event) : bool :=
  match ev with
  | DriverGet _ _ | WaitUntil _ _ _ | Sleep _ | FindElements _ _ => true
  | _ => false
  end.

(** The argument lists Chrome was started with, in the order of the starts. *)
Fixpoint chrome_starts (tr : list event) : list (list pystr) :=
  match tr with
  | [] => []
  | ChromeStart arguments :: tr' => arguments :: chrome_starts tr'
  | _ :: tr' => chrome_starts tr'
  end.

(** ** Predicates of the statements *)

(** A text the console can encode: it holds no lone surrogate. *)
Definition prints (s : pystr) : bool := negb (has_surrogate s).

(** The selector of a request is empty or absent: the key is missing, or it
    holds [null] or the empty string. *)
Definition selector_empty_or_absent (data : gmap pystr py_value) : bool :=
  match data !! "selector" with
  | None | Some PyNone => true
  | Some (PyStr s) => is_empty s
  | Some _ => false
  end.

(** Two result records hold the same value, whatever else they hold. *)
Definition same_value (a b : gmap pystr py_value) : Prop := a !! "value" = b !! "value".

(** [isinstance(v, str)] *)
Definition is_str (v : py_value) : bool :=
  match v with PyStr _ => true | _ => false end.

(** A record moved [offset] places down a list. *)
Definition renumber (offset : nat) (r : result_item) : result_item :=
  MkItem (value r) (index r + offset).

(** Every character of the string is white space. *)
Fixpoint all_space (s : pystr) : bool :=
  match s with
  | EmptyStr => true
  | Str c s' => py_isspace c && all_space s'
  end.

(** The first and the last character of a string are not white space, or
    the string is empty: there is nothing to strip. *)
Definition first_char (s : pystr) : option py_char :=
  match s with EmptyStr => None | Str c _ => Some c end.

Fixpoint last_char (s : pystr) : option py_char :=
  match s with
  | EmptyStr => None
  | Str c EmptyStr => Some c
  | Str _ s' => last_char s'
  end.

Definition no_space (c : option py_char) : bool :=
  match c with None => true | Some c => negb (py_isspace c) end.

Definition trimmed (s : pystr) : bool :=
  no_space (first_char s) && no_space (last_char s).

(** [core] is [s] without the white space at its two ends. *)
Definition trims_to (s core : pystr) : Prop :=
  exists l t : pystr,
    s = l +:+ core +:+ t
    /\ all_space l = true /\ all_space t = true /\ trimmed core = true.

(** The integer a text is the decimal numeral of, as the standard library
    reads numerals. *)
Definition read_int (s : pystr) : option Z :=
  match to_string s with
  | Some numeral => option_map Z.of_int (NilZero.int_of_string numeral)
  | None => None
  end.

(** The diagnostics of the turn on [el] can be printed: the value looked up,
    stripped, or the message of the exception the lookup raised. *)
Definition quiet (method : pystr) (attribute : py_value) (el : element) : bool :=
  match lookup_value method attribute el with
  | Return PyNone => true
  | Return v => prints (strip (py_str v))
  | Raise e => prints (exn_str e)
  end.

(** [r.get("execution_time")], in hundredths of a second, and
    [r.get("error")]; a failure has no time and a success no error. *)
Definition get_execution_time (r : response) : option Z :=
  match r with Success _ _ t _ => Some t | Failure _ _ => None end.

Definition get_error (r : response) : option pystr :=
  match r with Success _ _ _ _ => None | Failure err _ => Some err end.


(** Two answers that differ at most in the time they report. *)
Definition same_but_time (r r' : response) : Prop :=
  get_success r = get_success r'
  /\ get_results r = get_results r'
  /\ get_total_found r = get_total_found r'
  /\ get_method r = get_method r'
  /\ get_error r = get_error r'.

(** An answer that reports a time reports one that is not negative. *)
Definition nonnegative_time (r : response) : Prop :=
  match get_execution_time r with
  | Some t => 0 <= t
  | None => True
  end.

(** The clock never goes back as calls are made. *)
Definition monotone_clock (w : world) : Prop :=
  forall tr tr' : list event, time_time w tr <= time_time w (tr ++ tr').

(** The metadata keys that add a column to an export, with the title of the
    column, in the order the handler looks at them. *)
Definition metadata_columns : list (pystr * pystr) :=
  [ ("url", "Source URL"); ("selector", "CSS Selector");
    ("attribute", "Attribute"); ("method", "Method") ].

(** The columns a metadata object adds: those whose key holds something
    true. *)
Definition shown_columns (metadata : gmap pystr py_value) : list (pystr * pystr) :=
  List.filter (fun c => truthy (dict_get metadata c.1)) metadata_columns.

(** ** Concrete elements, worlds and requests *)

(** The string of one lone surrogate, U+D800: what the JSON text ["\ud800"]
    decodes to. *)
Definition lone : pystr := Str (Surrogate 0) EmptyStr.

(** [<h1> Hello </h1>] in a parsed page. *)
Definition h1_hello : Tag := MkTag [" Hello "] ∅.

(** [<a class="a b" rel="x" title="  "></a>] in a parsed page. *)
Definition anchor : Tag :=
  MkTag [] {[ "class" := PyList ["a"; "b"]; "rel" := PyList ["x"]; "title" := PyStr "  " ]}.

(** A tag of a parsed page whose one text node is a lone surrogate. *)
Definition lone_paragraph : Tag := MkTag [lone] ∅.

Definition stale : exn :=
  MkExn WebDriverException "stale element reference: element is not attached to the page document".

(** A browser element that has gone stale: every accessor raises. *)
Definition stale_element : WebElement :=
  MkWebElement (Raise stale) (fun _ => Raise stale) (fun _ => Raise stale).

(** [<h1>Hello</h1>] in a live document. *)
Definition live_h1 : WebElement :=
  MkWebElement (Return "Hello") (fun _ => Return PyNone) (fun _ => Return PyNone).

(** [<input type="checkbox" checked="">] in a live document: the attribute
    is empty, the property is [True]. *)
Definition live_checkbox : WebElement :=
  MkWebElement (Return "")
    (fun name => Return (if decide (name = "checked") then PyStr "" else PyNone))
    (fun name => Return (if decide (name = "checked") then PyBool true else PyNone)).

(** [<a data-id="">link</a>] in a parsed page and in a live document: the
    attribute is there and empty, and the live element has no property of
    that name. *)
Definition empty_data_tag : Tag := MkTag ["link"] {[ "data-id" := PyStr "" ]}.

Definition empty_data_element : WebElement :=
  MkWebElement (Return "link")
    (fun name => Return (if decide (name = "data-id") then PyStr "" else PyNone))
    (fun _ => Return PyNone).

(** The state before anything has run. *)
Definition initial : state := MkState [] ∅.

Definition timeout : exn := MkExn TimeoutException "Message: ".

Definition page_of (text : pystr) : http_response :=
  MkHttpResponse 200 "OK" "https://example.com/" text.

(** Time goes by one hundredth of a second per call on the world. *)
Definition ticking (tr : list event) : Z := Z.of_nat (length tr).

Definition is_h1 (selector : py_value) : bool :=
  match selector with PyStr s => bool_decide (s = "h1") | _ => false end.

(** A parsed page in which no selector matches anything. *)
Definition no_match : soup := MkSoup (fun _ => Return []).

(** A parsed page in which [h1] matches one heading. *)
Definition one_heading : soup :=
  MkSoup (fun selector => Return (if is_h1 selector then [h1_hello] else [])).

(** A browser in which nothing ever goes wrong and [<h1>Hello</h1>] is there
    from the start. *)
Definition plain_browser : browser :=
  MkBrowser (fun _ => Return tt) (fun _ _ => Return tt)
    (fun selector => Return (if is_h1 selector then [live_h1] else [])).

(** A site that serves [<h1> Hello </h1>] in its markup. *)
Definition static_site : world :=
  MkWorld (fun _ => Return (page_of "<h1> Hello </h1>"))
    (fun _ => Return one_heading)
    (Return "/usr/bin/chromedriver")
    (fun _ => Return plain_browser)
    ticking.

(** A browser that stops answering after the wait has timed out. *)
Definition unreachable : exn := MkExn WebDriverException "Message: chrome not reachable".

Definition crashing_browser : browser :=
  MkBrowser (fun _ => Return tt) (fun _ _ => Raise timeout) (fun _ => Raise unreachable).

Definition crashing_site : world :=
  MkWorld (fun _ => Return (page_of ""))
    (fun _ => Return no_match)
    (Return "/usr/bin/chromedriver")
    (fun _ => Return crashing_browser)
    ticking.

(** A browser on a page where the selector never matches in time but the
    commands keep answering. *)
Definition slow_browser : browser :=
  MkBrowser (fun _ => Return tt) (fun _ _ => Raise timeout)
    (fun _ => Return [live_h1; stale_element]).

Definition slow_site : world :=
  MkWorld (fun _ => Return (page_of ""))
    (fun _ => Return no_match)
    (Return "/usr/bin/chromedriver")
    (fun _ => Return slow_browser)
    ticking.

(** A browser like [plain_browser] except that the wait for the selector
    times out. *)
Definition late_browser : browser :=
  MkBrowser (driver_get plain_browser) (fun _ _ => Raise timeout)
    (find_elements plain_browser).

(** The same site behind that browser, with a clock of its own: a wait that
    times out takes its time. *)
Definition late_site : world :=
  MkWorld (requests_get static_site) (BeautifulSoup static_site)
    (driver_install static_site) (fun _ => Return late_browser)
    (fun tr => 1000 * Z.of_nat (length tr)).

(** A site that cannot be reached. *)
Definition refused : exn :=
  MkExn RequestException "HTTPSConnectionPool(host='example.com', port=443): Max retries exceeded".

Definition offline_site : world :=
  MkWorld (fun _ => Raise refused)
    (fun _ => Return no_match)
    (Return "/usr/bin/chromedriver")
    (fun _ => Return plain_browser)
    ticking.

(** A site that answers every request with 404. *)
Definition not_found_site : world :=
  MkWorld (fun _ => Return (MkHttpResponse 404 "Not Found" "https://example.com/missing" ""))
    (fun _ => Return no_match)
    (Return "/usr/bin/chromedriver")
    (fun _ => Return plain_browser)
    ticking.

(** A parsed page that rejects every selector. *)
Definition bad_selector : exn :=
  MkExn OtherException "Malformed attribute selector at position 2".

Definition strict_site : world :=
  MkWorld (fun _ => Return (page_of "<h1> Hello </h1>"))
    (fun _ => Return (MkSoup (fun _ => Raise bad_selector)))
    (Return "/usr/bin/chromedriver")
    (fun _ => Return plain_browser)
    ticking.

(** A browser whose page never finishes loading, and one whose wait fails
    for another reason than time. *)
Definition stuck_browser : browser :=
  MkBrowser (fun _ => Raise timeout) (fun _ _ => Return tt) (fun _ => Return []).

Definition stuck_site : world :=
  MkWorld (fun _ => Return (page_of "")) (fun _ => Return no_match)
    (Return "/usr/bin/chromedriver") (fun _ => Return stuck_browser) ticking.

Definition broken_wait_browser : browser :=
  MkBrowser (fun _ => Return tt) (fun _ _ => Raise unreachable) (fun _ => Return [live_h1]).

Definition broken_wait_site : world :=
  MkWorld (fun _ => Return (page_of "")) (fun _ => Return no_match)
    (Return "/usr/bin/chromedriver") (fun _ => Return broken_wait_browser) ticking.

(** A server that answers HEAD with 404 and no content type. *)
Definition head_not_found (url : py_value) : outcome head_response :=
  Return (MkHeadResponse 404 ∅).

(** [{"url": "https://example.com", "selector": "h1", "attribute": "Text Content"}] *)
Definition h1_request : gmap pystr py_value :=
  {[ "url" := PyStr "https://example.com";
     "selector" := PyStr "h1";
     "attribute" := PyStr "Text Content" ]}.

(** [{"url": "https://example.com", "selector": ""}] *)
Definition empty_selector_request : gmap pystr py_value :=
  {[ "url" := PyStr "https://example.com"; "selector" := PyStr "" ]}.

(** [{"url": "https://example.com"}] *)
Definition no_selector_request : gmap pystr py_value :=
  {[ "url" := PyStr "https://example.com" ]}.

(** [{"url": "https://example.com", "selector": "h1"}] *)
Definition bare_request : gmap pystr py_value :=
  {[ "url" := PyStr "https://example.com"; "selector" := PyStr "h1" ]}.

(** [{"url": "\ud800", "selector": "h1"}] *)
Definition lone_url_request : gmap pystr py_value :=
  {[ "url" := PyStr lone; "selector" := PyStr "h1" ]}.

(** [{"url": "https://example.com", "selector": "h1", "attribute": "\ud800"}] *)
Definition lone_attribute_request : gmap pystr py_value :=
  {[ "url" := PyStr "https://example.com";
     "selector" := PyStr "h1";
     "attribute" := PyStr lone ]}.

(** [[{"value": "Hello", "index": 7}, {"value": "a,b", "index": 7}, {"index": 0}]]:
    records whose index fields say nothing of their place. *)
Definition odd_results : list (gmap pystr py_value) :=
  [ {[ "value" := PyStr "Hello"; "index" := PyInt 7 ]};
    {[ "value" := PyStr "a,b"; "index" := PyInt 7 ]};
    {[ "index" := PyInt 0 ]} ].

(** The same values, numbered as the Result Builder numbers them. *)
Definition tidy_results : list (gmap pystr py_value) :=
  [ {[ "value" := PyStr "Hello"; "index" := PyInt 1 ]};
    {[ "value" := PyStr "a,b"; "index" := PyInt 2 ]};
    {[ "index" := PyInt 3 ]} ].

(** [{"url": "https://example.com"}] *)
Definition url_metadata : gmap pystr py_value :=
  {[ "url" := PyStr "https://example.com" ]}.

(** * Properties *)

(** ** Sanity checks of the embedding on concrete inputs *)

Example strip_ex : strip "  Hello 	" = "Hello". Proof. reflexivity. Qed.
Example lower_ex : py_lower "Text Content" = "text content". Proof. reflexivity. Qed.
Example str_ex1 : py_str (PyInt (-25)) = "-25". Proof. reflexivity. Qed.
Example str_ex0 : py_str (PyInt 0) = "0". Proof. reflexivity. Qed.
Example str_ex2 :
  py_str (PyList ["nofollow"; "it's"])
  = "['nofollow', " +:+ Str (Latin1 dquote) ("it's" +:+ Str (Latin1 dquote) "]").
Proof. reflexivity. Qed.
Example str_ex3 : py_str (PyList [lone]) = "['\ud800']". Proof. reflexivity. Qed.
Example get_ex : dict_get {[ "url" := PyStr "u" ]} "selector" = PyNone. Proof. reflexivity. Qed.

Example print_ex1 : print (auto_banner (PyStr "https://example.com")) = Return tt.
Proof. reflexivity. Qed.
Example print_ex2 :
  print (auto_banner (PyStr lone))
  = Raise (MkExn OtherException
             "'utf-8' codec can't encode character '\ud800' in position 17: surrogates not allowed").
Proof. reflexivity. Qed.
Example print_ex3 :
  print ("a" +:+ lone +:+ Str (Surrogate 1025) (lone +:+ "b"))
  = Raise (MkExn OtherException
             "'utf-8' codec can't encode characters in position 1-3: surrogates not allowed").
Proof. reflexivity. Qed.

Example extract_ex1 :
  extract_data_from_elements [BsTag h1_hello; BsTag anchor] (PyStr "Text Content") "beautifulsoup"
  = Return [MkItem "Hello" 1; MkItem "[Empty Text Content]" 2].
Proof. vm_compute. reflexivity. Qed.
Example extract_ex2 :
  extract_data_from_elements [BsTag h1_hello; BsTag anchor] (PyStr "Class") "beautifulsoup"
  = Return [MkItem "[No Class attribute]" 1; MkItem "a b" 2].
Proof. vm_compute. reflexivity. Qed.
Example extract_ex3 :
  extract_data_from_elements [BsTag anchor] (PyStr "rel") "beautifulsoup"
  = Return [MkItem "['x']" 1].
Proof. vm_compute. reflexivity. Qed.
Example extract_ex4 :
  extract_data_from_elements [BsTag anchor; BsTag h1_hello] PyNone "selenium"
  = Return [MkItem "[Error extracting None]" 1; MkItem "[Error extracting None]" 2].
Proof. vm_compute. reflexivity. Qed.
Example extract_selenium_ex :
  extract_data_from_elements
    [SeElement live_h1; SeElement stale_element; SeElement live_checkbox]
    (PyStr "Text Content") "selenium"
  = Return [MkItem "Hello" 1; MkItem "[Error extracting Text Content]" 2;
            MkItem "[Empty Text Content]" 3].
Proof. vm_compute. reflexivity. Qed.
Example extract_property_ex :
  extract_data_from_elements [SeElement live_checkbox; SeElement live_h1]
    (PyStr "Checked") "selenium"
  = Return [MkItem "True" 1; MkItem "[No Checked attribute]" 2].
Proof. vm_compute. reflexivity. Qed.

(** ** Strings *)

Lemma append_assoc (a b c : pystr) : (a +:+ b) +:+ c = a +:+ b +:+ c.
Proof. induction a as [|x a IH]; simpl; [done|]. by rewrite IH. Qed.

Lemma append_nil_r (a : pystr) : a +:+ EmptyStr = a.
Proof. induction a as [|x a IH]; simpl; [done|]. by rewrite IH. Qed.

Lemma is_empty_true (s : pystr) : is_empty s = true <-> s = EmptyStr.
Proof. destruct s; simpl; split; congruence. Qed.

Lemma join_empty_cons (p : pystr) (parts : list pystr) :
  join "" (p :: parts) = p +:+ join "" parts.
Proof. destruct parts; simpl; [by rewrite append_nil_r|done]. Qed.

Lemma join_cons_cons (sep p q : pystr) (parts : list pystr) :
  join sep (p :: q :: parts) = p +:+ sep +:+ join sep (q :: parts).
Proof. reflexivity. Qed.

Lemma join_cons_tail (sep p : pystr) (parts : list pystr) :
  exists tail, join sep (p :: parts) = p +:+ tail.
Proof. destruct parts; simpl; [exists EmptyStr; by rewrite append_nil_r|eauto]. Qed.

(** *** What [strip] removes and what it leaves *)

Lemma all_space_app (a b : pystr) : all_space (a +:+ b) = all_space a && all_space b.
Proof. induction a as [|c a IH]; simpl; [done|]. by rewrite IH, andb_assoc. Qed.

Lemma lstrip_splits (s : pystr) :
  exists l, s = l +:+ lstrip s /\ all_space l = true.
Proof.
  induction s as [|c s (l & Hs & Hl)]; simpl; [by exists EmptyStr|].
  destruct (py_isspace c) eqn:Hc.
  - exists (Str c l). simpl. rewrite Hc, Hl. split; [by f_equal|done].
  - by exists EmptyStr.
Qed.

Lemma rstrip_splits (s : pystr) :
  exists t, s = rstrip s +:+ t /\ all_space t = true.
Proof.
  induction s as [|c s (t & Hs & Ht)]; simpl; [by exists EmptyStr|].
  destruct (rstrip s) as [|d r] eqn:Hr.
  - destruct (py_isspace c) eqn:Hc.
    + exists (Str c s). simpl in *. subst t. by rewrite Hc, Ht.
    + exists s. simpl in *. by subst t.
  - exists t. simpl. split; [|done]. f_equal. exact Hs.
Qed.

(** [strip] takes white space, and nothing else, from the two ends. *)
Lemma strip_splits (s : pystr) :
  exists l t, s = l +:+ strip s +:+ t /\ all_space l = true /\ all_space t = true.
Proof.
  destruct (lstrip_splits s) as (l & Hs & Hl).
  destruct (rstrip_splits (lstrip s)) as (t & Hs' & Ht).
  exists l, t. split; [|done]. unfold strip. by rewrite <- Hs', <- Hs.
Qed.

Lemma lstrip_all_space (s : pystr) : all_space s = true -> lstrip s = EmptyStr.
Proof.
  induction s as [|c s IH]; simpl; [done|].
  intros [Hc Hs]%andb_prop. rewrite Hc. by apply IH.
Qed.

Lemma rstrip_cons_keep (c : py_char) (s : pystr) :
  py_isspace c = false -> exists r, rstrip (Str c s) = Str c r.
Proof. intros Hc. simpl. destruct (rstrip s); rewrite ?Hc; eauto. Qed.

Lemma lstrip_head (s : pystr) : no_space (first_char (lstrip s)) = true.
Proof.
  induction s as [|c s IH]; simpl; [done|].
  destruct (py_isspace c) eqn:Hc; [done|]. simpl. by rewrite Hc.
Qed.

Lemma rstrip_last (s : pystr) : no_space (last_char (rstrip s)) = true.
Proof.
  induction s as [|c s IH]; simpl; [done|].
  destruct (rstrip s) as [|d r] eqn:Hr.
  - destruct (py_isspace c) eqn:Hc; simpl; [done|by rewrite Hc].
  - exact IH.
Qed.

Lemma strip_trimmed (s : pystr) : trimmed (strip s) = true.
Proof.
  unfold trimmed, strip. rewrite rstrip_last, andb_true_r.
  pose proof (lstrip_head s) as Hhead.
  destruct (lstrip s) as [|c t]; [done|]. simpl in Hhead.
  apply negb_true_iff in Hhead.
  destruct (rstrip_cons_keep c t Hhead) as [r ->]. simpl. by rewrite Hhead.
Qed.

(** [strip] leaves nothing exactly of a string of white space. *)
Lemma strip_empty (s : pystr) : is_empty (strip s) = all_space s.
Proof.
  destruct (all_space s) eqn:Hs.
  - unfold strip. by rewrite lstrip_all_space.
  - destruct (strip_splits s) as (l & t & Heq & Hl & Ht).
    destruct (strip s) as [|c r]; [|done].
    rewrite Heq, !all_space_app, Hl, Ht in Hs. done.
Qed.

Lemma last_char_app (a b : pystr) :
  b <> EmptyStr -> last_char (a +:+ b) = last_char b.
Proof.
  intros Hb. induction a as [|c a IH]; [done|].
  cbn [append last_char]. rewrite IH.
  destruct (a +:+ b) eqn:Hab; [|done].
  destruct a, b; try done.
Qed.

Lemma rstrip_fixed (s : pystr) : no_space (last_char s) = true -> rstrip s = s.
Proof.
  induction s as [|c s IH]; [done|]. intros Hlast. cbn [rstrip].
  destruct s as [|d s'].
  - simpl in *. by destruct (py_isspace c).
  - rewrite IH by exact Hlast. done.
Qed.

Lemma strip_fixed (s : pystr) : trimmed s = true -> strip s = s.
Proof.
  unfold trimmed, strip. intros [Hfirst Hlast]%andb_prop.
  assert (lstrip s = s) as ->.
  { destruct s as [|c s]; [done|]. simpl in *. by destruct (py_isspace c). }
  by apply rstrip_fixed.
Qed.

Lemma bracketed_trimmed (label : pystr) (a : pystr) (tail : pystr) :
  trimmed (Str (Latin1 "[") (label +:+ a +:+ tail +:+ "]")) = true.
Proof.
  unfold trimmed. apply andb_true_intro. split; [done|].
  change (Str (Latin1 "[") (label +:+ a +:+ tail +:+ "]"))
    with (Str (Latin1 "[") label +:+ a +:+ tail +:+ "]").
  rewrite <- !append_assoc. by rewrite last_char_app.
Qed.

(** *** What can be printed *)

Lemma has_surrogate_app (a b : pystr) :
  has_surrogate (a +:+ b) = has_surrogate a || has_surrogate b.
Proof. induction a as [|c a IH]; simpl; [done|]. by rewrite IH, orb_assoc. Qed.

Lemma print_returns (text : pystr) : prints text = true -> print text = Return tt.
Proof. unfold prints, print. by destruct (has_surrogate text). Qed.

Lemma print_raises (text : pystr) :
  prints text = false -> print text = Raise (UnicodeEncodeError text).
Proof. unfold prints, print. by destruct (has_surrogate text). Qed.

Lemma of_string_prints (s : string) : has_surrogate (of_string s) = false.
Proof. induction s as [|c s IH]; simpl; done. Qed.

Lemma repr_char_prints (quote : ascii) (c : py_char) :
  has_surrogate (repr_char quote c) = false.
Proof.
  destruct c as [a|n|n]; simpl; [|done|done].
  unfold repr_latin1.
  repeat match goal with |- context [if ?b then _ else _] => destruct b end; done.
Qed.

Lemma repr_chars_prints (quote : ascii) (s : pystr) :
  has_surrogate (repr_chars quote s) = false.
Proof.
  induction s as [|c s IH]; simpl; [done|].
  by rewrite has_surrogate_app, repr_char_prints, IH.
Qed.

Lemma py_repr_prints (s : pystr) : has_surrogate (py_repr s) = false.
Proof.
  unfold py_repr. simpl. by rewrite has_surrogate_app, repr_chars_prints.
Qed.

Lemma join_reprs_prints (items : list pystr) :
  has_surrogate (join ", " (map py_repr items)) = false.
Proof.
  induction items as [|p items IH]; [done|].
  destruct items as [|q items]; [apply py_repr_prints|].
  cbn [map] in *. rewrite join_cons_cons, !has_surrogate_app, py_repr_prints, IH. done.
Qed.

(** What [str] shows of a value that is not a string can be printed: the
    items of a list are shown escaped. *)
Lemma non_string_prints (v : py_value) : is_str v = false -> has_surrogate (py_str v) = false.
Proof.
  destruct v as [|[]|n|s|items]; try done; intros _.
  - apply of_string_prints.
  - simpl. by rewrite has_surrogate_app, join_reprs_prints.
Qed.

Lemma diagnostic_surrogate (attribute v : py_value) :
  has_surrogate (diagnostic attribute v)
  = has_surrogate (py_str attribute)
    || match v with PyNone => false | _ => has_surrogate (strip (py_str v)) end.
Proof.
  destruct v; simpl; rewrite !has_surrogate_app; simpl;
    rewrite ?has_surrogate_app; simpl; by rewrite ?orb_false_r.
Qed.

Lemma error_diagnostic_surrogate (attribute : py_value) (e : exn) :
  has_surrogate (error_diagnostic attribute e)
  = has_surrogate (py_str attribute) || has_surrogate (exn_str e).
Proof. simpl. rewrite !has_surrogate_app. done. Qed.

(** ** The Result Builder: [extract_data_from_elements] *)

Lemma recorded_value_not_empty (attribute v : py_value) :
  recorded_value attribute v <> EmptyStr.
Proof.
  unfold recorded_value.
  destruct v; try discriminate;
    (destruct (is_empty (strip _)) eqn:E; [discriminate|]);
    intros H; apply is_empty_true in H; congruence.
Qed.

Lemma resolve_not_empty (method : pystr) (attribute : py_value) (el : element) :
  resolve method attribute el <> EmptyStr.
Proof.
  unfold resolve. destruct (lookup_value method attribute el).
  - apply recorded_value_not_empty.
  - discriminate.
Qed.

Lemma recorded_value_trimmed (attribute v : py_value) :
  trimmed (recorded_value attribute v) = true.
Proof.
  unfold recorded_value.
  pose proof (bracketed_trimmed "No " (py_str attribute) " attribute") as Hno.
  pose proof (bracketed_trimmed "Empty " (py_str attribute) "") as Hempty.
  destruct v; try exact Hno;
    (destruct (is_empty (strip _)); [exact Hempty|apply strip_trimmed]).
Qed.

Lemma error_value_trimmed (attribute : py_value) : trimmed (error_value attribute) = true.
Proof. exact (bracketed_trimmed "Error extracting " (py_str attribute) ""). Qed.

(** A record is determined by its two fields. *)
Lemma item_eq (r : result_item) (v : pystr) (i : nat) :
  value r = v -> index r = i -> r = MkItem v i.
Proof. destruct r; simpl; congruence. Qed.

Section Extraction.
Variable method : pystr.
Variable attribute : py_value.

Local Abbreviation step := (extract_step method attribute).
Local Abbreviation loop := (extract_loop method attribute).

(** A turn appends at most two records, each with the value of the [try]
    block or the one of the [except] clause. *)
Lemma step_appends (results : list result_item) (el : element) :
  exists added,
    (step results el).2 = results ++ added
    /\ Forall (fun r => (exists v, value r = recorded_value attribute v)
                        \/ value r = error_value attribute) added.
Proof.
  assert (forall v : py_value, forall i : nat,
    (exists v', value (MkItem (recorded_value attribute v) i) = recorded_value attribute v')
    \/ value (MkItem (recorded_value attribute v) i) = error_value attribute) as Hrec
    by (intros v i; left; by exists v).
  assert (forall i : nat,
    (exists v', value (MkItem (error_value attribute) i) = recorded_value attribute v')
    \/ value (MkItem (error_value attribute) i) = error_value attribute) as Herr
    by (intros i; by right).
  unfold extract_step, try_block, append_record.
  destruct (lookup_value method attribute el) as [v|e].
  - destruct (print (diagnostic attribute v)) as [[]|e]; simpl.
    + eexists [_]. split; [done|]. constructor; [apply Hrec|constructor].
    + destruct (print (error_diagnostic attribute e)) as [[]|e']; simpl.
      * eexists [_; _]. rewrite <- app_assoc. split; [done|].
        constructor; [apply Hrec|]. constructor; [apply Herr|constructor].
      * eexists [_]. split; [done|]. constructor; [apply Hrec|constructor].
  - destruct (print (error_diagnostic attribute e)) as [[]|e']; simpl.
    + eexists [_]. split; [done|]. constructor; [apply Herr|constructor].
    + exists []. split; [by rewrite app_nil_r|constructor].
Qed.

(** Whatever holds of every value a turn can record holds of every record of
    a batch that is returned. *)
Lemma loop_records (P : result_item -> Prop)
    (elements : list element) (results rs : list result_item) :
  (forall r, (exists v, value r = recorded_value attribute v)
             \/ value r = error_value attribute -> P r) ->
  Forall P results ->
  loop elements results = Return rs ->
  Forall P rs.
Proof.
  intros HP. revert results.
  induction elements as [|el elements IH]; intros results Hres; simpl.
  - by intros [= <-].
  - destruct (step_appends results el) as (added & Heq & Hadded).
    destruct (step results el) as [[[]|e] results']; [|done].
    simpl in Heq. subst results'. apply IH.
    apply Forall_app. split; [done|].
    eapply Forall_impl; [exact Hadded|]. intros r Hr. by apply HP.
Qed.

(** When the diagnostics of a turn print, the turn appends one record, the
    one its element resolves to. *)
Lemma step_quiet (results : list result_item) (el : element) :
  prints (py_str attribute) = true ->
  quiet method attribute el = true ->
  step results el = (Return tt, append_record results (resolve method attribute el)).
Proof.
  unfold prints, quiet, extract_step, try_block, resolve.
  intros Hattr%negb_true_iff Hel.
  destruct (lookup_value method attribute el) as [v|e].
  - rewrite print_returns; [done|].
    unfold prints. rewrite diagnostic_surrogate, Hattr.
    destruct v; unfold prints in Hel; simpl in *; by rewrite ?Hel.
  - rewrite print_returns; [done|].
    unfold prints in *. rewrite error_diagnostic_surrogate, Hattr. done.
Qed.

Lemma loop_quiet (elements : list element) (results : list result_item) :
  prints (py_str attribute) = true ->
  forallb (quiet method attribute) elements = true ->
  loop elements results
  = Return (results
             ++ imap (fun i el => MkItem (resolve method attribute el) (length results + i + 1))
                  elements).
Proof.
  intros Hattr. revert results.
  induction elements as [|el elements IH]; intros results; simpl.
  - by rewrite app_nil_r.
  - intros [Hel Hrest]%andb_prop. rewrite step_quiet by done.
    rewrite IH by done. unfold append_record. rewrite <- app_assoc. simpl.
    rewrite Nat.add_0_r. do 3 f_equal.
    apply imap_ext. intros i x _. simpl. rewrite length_app. simpl. f_equal. lia.
Qed.

(** A turn looks at the list only to number its records. *)
Lemma append_record_shift (acc rs : list result_item) (v : pystr) :
  append_record (acc ++ map (renumber (length acc)) rs) v
  = acc ++ map (renumber (length acc)) (append_record rs v).
Proof.
  unfold append_record. rewrite map_app, app_assoc. simpl. do 2 f_equal.
  unfold renumber. simpl. rewrite length_app, length_map. f_equal. lia.
Qed.

Lemma step_shift (acc rs : list result_item) (el : element) :
  step (acc ++ map (renumber (length acc)) rs) el
  = ((step rs el).1, acc ++ map (renumber (length acc)) (step rs el).2).
Proof.
  unfold extract_step, try_block.
  destruct (lookup_value method attribute el) as [v|e].
  - rewrite append_record_shift.
    destruct (print (diagnostic attribute v)) as [[]|e]; [done|].
    destruct (print (error_diagnostic attribute e)) as [[]|e']; [|done].
    simpl. by rewrite append_record_shift.
  - destruct (print (error_diagnostic attribute e)) as [[]|e']; [|done].
    simpl. by rewrite append_record_shift.
Qed.

Lemma loop_shift (elements : list element) (acc rs : list result_item) :
  loop elements (acc ++ map (renumber (length acc)) rs)
  = match loop elements rs with
    | Return rs' => Return (acc ++ map (renumber (length acc)) rs')
    | Raise e => Raise e
    end.
Proof.
  revert rs. induction elements as [|el elements IH]; intros rs; simpl; [done|].
  rewrite step_shift.
  destruct (step rs el) as [[[]|e] rs']; simpl; [|done]. apply IH.
Qed.

Lemma loop_app (first second : list element) (results : list result_item) :
  loop (first ++ second) results
  = match loop first results with
    | Return rs => loop second rs
    | Raise e => Raise e
    end.
Proof.
  revert results. induction first as [|el first IH]; intros results; simpl; [done|].
  destruct (step results el) as [[[]|e] rs]; [|done]. apply IH.
Qed.
End Extraction.

Lemma resolve_ext (m m' : pystr) (a a' : py_value) (el : element) :
  lookup_value m a el = lookup_value m' a' el ->
  py_str a = py_str a' ->
  resolve m a el = resolve m' a' el.
Proof.
  intros Hlook Hstr. unfold resolve, recorded_value, error_value.
  by rewrite Hlook, Hstr.
Qed.

(** Two batches over the same elements whose lookups agree are the same
    batch. *)
Lemma extract_ext (m m' : pystr) (a : py_value) (elements : list element) :
  (forall el, lookup_value m a el = lookup_value m' a el) ->
  extract_data_from_elements elements a m = extract_data_from_elements elements a m'.
Proof.
  intros Hsame. unfold extract_data_from_elements. generalize (@nil result_item).
  induction elements as [|el elements IH]; intros results; simpl; [done|].
  unfold extract_step, try_block. rewrite Hsame.
  destruct (lookup_value m' a el) as [v|e].
  - destruct (print (diagnostic a v)) as [[]|e]; [apply IH|].
    destruct (print (error_diagnostic a e)) as [[]|e']; [apply IH|done].
  - destruct (print (error_diagnostic a e)) as [[]|e']; [apply IH|done].
Qed.

Lemma lookup_non_string (method : pystr) (attribute : py_value) (el : element) :
  is_str attribute = false ->
  lookup_value method attribute el = Raise (AttributeError attribute "lower").
Proof.
  intros Hstr. unfold lookup_value.
  destruct attribute; try discriminate; by destruct (decide (method = "selenium")).
Qed.

Lemma strip_trims_to (s : pystr) : trims_to s (strip s).
Proof.
  destruct (strip_splits s) as (l & t & Heq & Hl & Ht).
  exists l, t. repeat split; try done. apply strip_trimmed.
Qed.

Lemma attribute_error_prints (v : py_value) (name : pystr) :
  prints name = true -> prints (exn_str (AttributeError v name)) = true.
Proof.
  unfold prints. intros Hname%negb_true_iff. apply negb_true_iff.
  destruct v; simpl; rewrite ?has_surrogate_app; simpl;
    rewrite ?has_surrogate_app, ?Hname; done.
Qed.

(** C2. The batch is not always one record per element.  With the requested
    attribute "\ud800" and one matched heading, the record is appended, the
    diagnostic of line 81 cannot be printed, the [except] clause prints
    first (line 84) and that print raises too: the exception leaves the
    function and no batch is returned.  With a text node that is a lone
    surrogate and the attribute "Text Content", the record is appended, the
    print of line 74 raises and the [except] clause appends a second record:
    one element, two records. *)
Theorem batch_is_not_one_record_per_element :
  extract_data_from_elements [BsTag h1_hello] (PyStr lone) "beautifulsoup"
  = Raise (MkExn OtherException
      "'utf-8' codec can't encode character '\ud800' in position 20: surrogates not allowed")
  /\ extract_data_from_elements [BsTag lone_paragraph] (PyStr "Text Content") "beautifulsoup"
     = Return [MkItem lone 1; MkItem "[Error extracting Text Content]" 2].
Proof. split; vm_compute; reflexivity. Qed.

(** C3. The value recorded for a looked-up value is never the empty string.
    When the lookup gives [None] it is "[No <attribute> attribute]";
    otherwise the text of the value is taken without the white space at its
    two ends, and the record holds that text, or "[Empty <attribute>]" when
    nothing is left of it.  The record is appended at the end of the list,
    numbered with its place. *)
Theorem recorded_value_never_empty
    (method a : pystr) (results : list result_item) (el : element) (v : py_value) :
  lookup_value method (PyStr a) el = Return v ->
  exists out : pystr,
    (try_block method (PyStr a) results el).2
    = results ++ [MkItem out (length results + 1)]
    /\ out <> EmptyStr
    /\ match v with
       | PyNone => out = "[No " +:+ a +:+ " attribute]"
       | PyStr s =>
           exists core, trims_to s core
             /\ out = match core with EmptyStr => "[Empty " +:+ a +:+ "]" | _ => core end
       | _ =>
           exists core, trims_to (py_str v) core
             /\ out = match core with EmptyStr => "[Empty " +:+ a +:+ "]" | _ => core end
       end.
Proof.
  intros Hlook. exists (recorded_value (PyStr a) v).
  unfold try_block. rewrite Hlook. split; [done|].
  split; [apply recorded_value_not_empty|].
  destruct v as [|b|n|s|items]; [done| | | |];
    (eexists; split; [apply strip_trims_to|]);
    unfold recorded_value; simpl py_str;
    match goal with |- context [is_empty ?x] => by destruct x end.
Qed.

Lemma recorded_value_never_empty_witness :
  exists out : pystr,
    (try_block "beautifulsoup" (PyStr "Title") [MkItem "Hello" 1] (BsTag anchor)).2
    = [MkItem "Hello" 1] ++ [MkItem out (length [MkItem "Hello" 1] + 1)]
    /\ out <> EmptyStr
    /\ exists core, trims_to "  " core
         /\ out = match core with EmptyStr => "[Empty " +:+ "Title" +:+ "]" | _ => core end.
Proof.
  apply (recorded_value_never_empty "beautifulsoup" "Title" [MkItem "Hello" 1]
           (BsTag anchor) (PyStr "  ")).
  reflexivity.
Defined.

(** C4. A fault in the resolution of one element can leave the Result
    Builder.  With the method "selenium", the requested attribute "\ud800"
    and an element gone stale first in the list, the lookup raises, the
    [except] clause prints before it appends (line 84), the attribute cannot
    be printed, and the exception of the print, raised inside the handler,
    ends the loop: no record is made for the stale element, the live element
    after it is never looked at, and nothing is returned. *)
Theorem element_fault_leaves_the_batch :
  lookup_value "selenium" (PyStr lone) (SeElement stale_element) = Raise stale
  /\ extract_step "selenium" (PyStr lone) [] (SeElement stale_element)
     = (Raise (UnicodeEncodeError (error_diagnostic (PyStr lone) stale)), [])
  /\ extract_data_from_elements [SeElement stale_element; SeElement live_h1]
       (PyStr lone) "selenium"
     = Raise (MkExn OtherException
         "'utf-8' codec can't encode character '\ud800' in position 20: surrogates not allowed").
Proof. repeat split; vm_compute; reflexivity. Qed.

(** ** The Result Builder, further *)

(** X1. The attribute name is looked up without regard to case: two requested
    names that are equal once lowered give the same looked-up value on every
    element, with either method. *)
Theorem lookup_ignores_case (method a b : pystr) (el : element) :
  py_lower a = py_lower b ->
  lookup_value method (PyStr a) el = lookup_value method (PyStr b) el.
Proof.
  intros Hlow. unfold lookup_value, lower.
  unfold mbind, outcome_bind. by rewrite Hlow.
Qed.

Lemma lookup_ignores_case_witness :
  lookup_value "beautifulsoup" (PyStr "CLASS") (BsTag anchor)
  = lookup_value "beautifulsoup" (PyStr "Class") (BsTag anchor).
Proof.
  apply (lookup_ignores_case "beautifulsoup" "CLASS" "Class" (BsTag anchor)).
  reflexivity.
Defined.

(** X2. Only the method "selenium" selects the browser accessors: with any
    other method string the batch is the one of "beautifulsoup". *)
Theorem other_methods_are_beautifulsoup
    (method : pystr) (attribute : py_value) (elements : list element) :
  method <> "selenium" ->
  extract_data_from_elements elements attribute method
  = extract_data_from_elements elements attribute "beautifulsoup".
Proof.
  intros Hne. apply extract_ext. intros el.
  unfold lookup_value. by destruct (decide (method = "selenium")).
Qed.

Lemma other_methods_are_beautifulsoup_witness :
  extract_data_from_elements [BsTag h1_hello; BsTag anchor] (PyStr "class") "bs4"
  = extract_data_from_elements [BsTag h1_hello; BsTag anchor] (PyStr "class")
      "beautifulsoup".
Proof.
  apply (other_methods_are_beautifulsoup "bs4" (PyStr "class")
           [BsTag h1_hello; BsTag anchor]).
  discriminate.
Defined.

(** X3. A requested attribute that is not a string (a JSON null, number,
    boolean or list) makes the lookup raise on every element; the message
    and the attribute can be printed, so the batch is returned and every
    record of it is the error placeholder, numbered as usual. *)
Theorem non_string_attribute_faults_everywhere
    (method : pystr) (attribute : py_value) (elements : list element) :
  is_str attribute = false ->
  extract_data_from_elements elements attribute method
  = Return (imap (fun i _ => MkItem ("[Error extracting " +:+ py_str attribute +:+ "]") (i + 1))
              elements).
Proof.
  intros Hstr. unfold extract_data_from_elements.
  rewrite loop_quiet.
  - simpl. f_equal. apply imap_ext. intros i el _. simpl.
    unfold resolve. by rewrite lookup_non_string.
  - unfold prints. by rewrite non_string_prints.
  - apply forallb_forall. intros el _. unfold quiet.
    rewrite lookup_non_string by done. by apply attribute_error_prints.
Qed.

Lemma non_string_attribute_faults_everywhere_witness :
  extract_data_from_elements [BsTag h1_hello; SeElement live_h1] PyNone "beautifulsoup"
  = Return (imap (fun i _ => MkItem ("[Error extracting " +:+ py_str PyNone +:+ "]") (i + 1))
              [BsTag h1_hello; SeElement live_h1]).
Proof.
  apply (non_string_attribute_faults_everywhere "beautifulsoup" PyNone
           [BsTag h1_hello; SeElement live_h1]).
  reflexivity.
Defined.

(** X4. On a tag of the parsed page, with the static method, the lookup
    (lines 56-64) raises exactly when the requested attribute is not a
    string. *)
Theorem tag_lookup_raises_iff_not_string (attribute : py_value) (t : Tag) :
  (exists e, lookup_value "beautifulsoup" attribute (BsTag t) = Raise e)
  <-> is_str attribute = false.
Proof.
  split.
  - intros [e He]. destruct attribute as [| | |a|]; try done.
    unfold lookup_value in He. simpl in He. unfold mbind, outcome_bind, mret, outcome_ret in He.
    simpl in He.
    destruct (decide (py_lower a = "text content")); [done|].
    destruct (tag_get t (py_lower a)); try done.
    by destruct (decide (py_lower a = "class")).
  - intros Hstr. eexists. by apply lookup_non_string.
Qed.

(** X5. No value of a batch that is returned starts or ends with white
    space, placeholders included: stripping a recorded value again changes
    nothing. *)
Theorem recorded_values_are_trimmed
    (method : pystr) (attribute : py_value) (elements : list element)
    (rs : list result_item) (r : result_item) :
  extract_data_from_elements elements attribute method = Return rs ->
  r ∈ rs ->
  trimmed (value r) = true /\ strip (value r) = value r.
Proof.
  intros Hrun Hin.
  assert (Forall (fun r => trimmed (value r) = true) rs) as Hall.
  { eapply (loop_records method attribute); [|constructor|exact Hrun].
    intros r' [[v ->]| ->]; [apply recorded_value_trimmed|apply error_value_trimmed]. }
  rewrite Forall_forall in Hall. specialize (Hall r Hin).
  split; [done|]. by apply strip_fixed.
Qed.

Lemma recorded_values_are_trimmed_witness :
  trimmed (value (MkItem "[Empty Text Content]" 2)) = true
  /\ strip (value (MkItem "[Empty Text Content]" 2)) = value (MkItem "[Empty Text Content]" 2).
Proof.
  apply (recorded_values_are_trimmed "beautifulsoup" (PyStr "Text Content")
           [BsTag h1_hello; BsTag anchor]
           [MkItem "Hello" 1; MkItem "[Empty Text Content]" 2]).
  - vm_compute. reflexivity.
  - apply list_elem_of_In. right. left. reflexivity.
Defined.

(** X6. An attribute that is present and empty is recorded differently by the
    two methods: the static method records "[Empty <attribute>]", while the
    browser method falls back to the property of that name and, when there is
    none, records "[No <attribute> attribute]". *)
Theorem empty_attribute_differs_by_method (a : pystr) (t : Tag) (e : WebElement) :
  py_lower a <> "text content" ->
  tag_attrs t !! py_lower a = Some (PyStr "") ->
  get_attribute e (py_lower a) = Return (PyStr "") ->
  get_property e (py_lower a) = Return PyNone ->
  resolve "beautifulsoup" (PyStr a) (BsTag t) = "[Empty " +:+ a +:+ "]"
  /\ resolve "selenium" (PyStr a) (SeElement e) = "[No " +:+ a +:+ " attribute]".
Proof.
  intros Hname Htag Hattr Hprop. unfold resolve, lookup_value. simpl.
  unfold mbind, outcome_bind, mret, outcome_ret. simpl.
  destruct (decide (py_lower a = "text content")); [done|].
  unfold tag_get, dict_get. rewrite Htag, Hattr. simpl. by rewrite Hprop.
Qed.

Lemma empty_attribute_differs_by_method_witness :
  resolve "beautifulsoup" (PyStr "data-id") (BsTag empty_data_tag)
  = "[Empty " +:+ "data-id" +:+ "]"
  /\ resolve "selenium" (PyStr "data-id") (SeElement empty_data_element)
     = "[No " +:+ "data-id" +:+ " attribute]".
Proof.
  apply (empty_attribute_differs_by_method "data-id" empty_data_tag empty_data_element);
    [discriminate|reflexivity..].
Defined.

(** X7. The batch of a concatenation: when the batch of the first part is
    returned, the second part is gone through as on its own, its records
    renumbered to start after those of the first and appended to them; an
    exception that ends either part ends the whole. *)
Theorem extract_of_concatenation
    (method : pystr) (attribute : py_value) (first second : list element) :
  extract_data_from_elements (first ++ second) attribute method
  = match extract_data_from_elements first attribute method with
    | Raise e => Raise e
    | Return rs1 =>
        match extract_data_from_elements second attribute method with
        | Raise e => Raise e
        | Return rs2 => Return (rs1 ++ map (renumber (length rs1)) rs2)
        end
    end.
Proof.
  unfold extract_data_from_elements. rewrite loop_app.
  destruct (extract_loop method attribute first []) as [rs1|e]; [|done].
  pose proof (loop_shift method attribute second rs1 []) as Hshift.
  simpl in Hshift. rewrite app_nil_r in Hshift. exact Hshift.
Qed.

(** X20. On a tag whose requested attribute holds a list of tokens, the
    static method joins the tokens with single spaces when the attribute,
    lowered, is "class"; for any other name the record is the text of the
    Python list, brackets and quotes included. *)
Theorem list_attribute_joined_only_for_class (a : pystr) (t : Tag) (tokens : list pystr) :
  py_lower a <> "text content" ->
  tag_attrs t !! py_lower a = Some (PyList tokens) ->
  resolve "beautifulsoup" (PyStr a) (BsTag t)
  = if decide (py_lower a = "class")
    then (if is_empty (strip (join " " tokens))
          then "[Empty " +:+ a +:+ "]"
          else strip (join " " tokens))
    else "[" +:+ join ", " (map py_repr tokens) +:+ "]".
Proof.
  intros Hname Hattr. unfold resolve, lookup_value. simpl.
  unfold mbind, outcome_bind, mret, outcome_ret. simpl.
  destruct (decide (py_lower a = "text content")); [done|].
  unfold tag_get, dict_get. rewrite Hattr. simpl.
  destruct (decide (py_lower a = "class")); [done|].
  unfold recorded_value, py_str.
  pose proof (bracketed_trimmed "" (join ", " (map py_repr tokens)) "") as Htrim.
  change (Str (Latin1 "[") ("" +:+ join ", " (map py_repr tokens) +:+ "" +:+ "]"))
    with ("[" +:+ join ", " (map py_repr tokens) +:+ "]") in Htrim.
  by rewrite (strip_fixed _ Htrim).
Qed.

Lemma list_attribute_joined_only_for_class_witness :
  resolve "beautifulsoup" (PyStr "Rel") (BsTag anchor)
  = if decide (py_lower "Rel" = "class")
    then (if is_empty (strip (join " " ["x"]))
          then "[Empty " +:+ "Rel" +:+ "]"
          else strip (join " " ["x"]))
    else "[" +:+ join ", " (map py_repr ["x"]) +:+ "]".
Proof.
  apply (list_attribute_joined_only_for_class "Rel" anchor ["x"]);
    [discriminate|reflexivity].
Defined.

(** X21. When the requested attribute can be printed and so can, for every
    element, what its turn prints (the value looked up, stripped, or the
    message of the exception of the lookup), the batch is returned and holds
    exactly one record per element, in the order of the elements: the i-th
    record holds what the i-th element resolves to (value or placeholder)
    and the index i, counted from 1. *)
Theorem printable_batch_is_one_record_per_element
    (method : pystr) (attribute : py_value) (elements : list element) :
  prints (py_str attribute) = true ->
  forallb (quiet method attribute) elements = true ->
  extract_data_from_elements elements attribute method
  = Return (imap (fun i el => MkItem (resolve method attribute el) (i + 1)) elements).
Proof.
  intros Hattr Hquiet. unfold extract_data_from_elements.
  by rewrite loop_quiet.
Qed.

Lemma printable_batch_is_one_record_per_element_witness :
  extract_data_from_elements
    [SeElement live_h1; SeElement stale_element; SeElement live_checkbox]
    (PyStr "Text Content") "selenium"
  = Return (imap (fun i el => MkItem (resolve "selenium" (PyStr "Text Content") el) (i + 1))
              [SeElement live_h1; SeElement stale_element; SeElement live_checkbox]).
Proof.
  apply (printable_batch_is_one_record_per_element "selenium" (PyStr "Text Content")
           [SeElement live_h1; SeElement stale_element; SeElement live_checkbox]);
    reflexivity.
Defined.

(** ** Running the handlers *)

Lemma count_calls_app (p : event -> bool) (tr1 tr2 : list event) :
  count_calls p (tr1 ++ tr2) = (count_calls p tr1 + count_calls p tr2)%nat.
Proof. induction tr1 as [|ev tr1 IH]; simpl; [done|]. rewrite IH. lia. Qed.

Lemma close_fresh_session (live : gset nat) :
  ({[ fresh live ]} ∪ live) ∖ {[ fresh live ]} = live.
Proof.
  pose proof (is_fresh live) as Hfresh. apply set_eq. intros sid.
  rewrite elem_of_difference, elem_of_union, elem_of_singleton.
  split; [by intros [[->|Hin] Hne]|].
  intros Hin. split; [by right|]. by intros ->.
Qed.

Lemma state_eta (s : state) : MkState (calls s) (sessions s) = s.
Proof. by destruct s. Qed.

(** The banners print exactly when the URL does. *)
Lemma beautifulsoup_banner_surrogate (url : py_value) :
  has_surrogate (beautifulsoup_banner url) = has_surrogate (py_str url).
Proof. reflexivity. Qed.

Lemma selenium_banner_surrogate (url : py_value) :
  has_surrogate (selenium_banner url) = has_surrogate (py_str url).
Proof. reflexivity. Qed.

Lemma auto_banner_surrogate (url : py_value) :
  has_surrogate (auto_banner url) = has_surrogate (py_str url).
Proof. reflexivity. Qed.

Lemma print_beautifulsoup_banner (url : py_value) :
  print (beautifulsoup_banner url)
  = if has_surrogate (py_str url)
    then Raise (UnicodeEncodeError (beautifulsoup_banner url)) else Return tt.
Proof. unfold print. by rewrite beautifulsoup_banner_surrogate. Qed.

Lemma print_selenium_banner (url : py_value) :
  print (selenium_banner url)
  = if has_surrogate (py_str url)
    then Raise (UnicodeEncodeError (selenium_banner url)) else Return tt.
Proof. unfold print. by rewrite selenium_banner_surrogate. Qed.

Lemma print_auto_banner (url : py_value) :
  print (auto_banner url)
  = if has_surrogate (py_str url)
    then Raise (UnicodeEncodeError (auto_banner url)) else Return tt.
Proof. unfold print. by rewrite auto_banner_surrogate. Qed.

Lemma print_timeout_notice : print timeout_notice = Return tt.
Proof. reflexivity. Qed.

Lemma print_fallback_notice : print fallback_notice = Return tt.
Proof. reflexivity. Qed.

(** Unfolds the monad down to the answers of the world. *)
Ltac run :=
  unfold try_except, attempt, perform, lift, raise, now, open_session, driver_quit,
    mbind, M_bind, mret, M_ret in *;
  simpl in *.

(** With a URL that cannot be printed, [scrape_beautifulsoup] stops at its
    first line: it asks nothing of the world and answers with the failure of
    its last [except] clause. *)
Lemma scrape_beautifulsoup_unprintable (w : world) (data : gmap pystr py_value) (s : state) :
  has_surrogate (py_str (dict_get data "url")) = true ->
  scrape_beautifulsoup w data s
  = (Return (Failure (exn_str (UnicodeEncodeError (beautifulsoup_banner (dict_get data "url"))))
               "Beautiful Soup"), s).
Proof.
  intros Hurl. unfold scrape_beautifulsoup. rewrite print_beautifulsoup_banner, Hurl.
  reflexivity.
Qed.

(** With a URL that can be printed, [scrape_beautifulsoup] never raises, asks
    the world for the page and for nothing else, holds no session, and
    counts what it returns. *)
Lemma scrape_beautifulsoup_runs (w : world) (data : gmap pystr py_value) (s : state) :
  has_surrogate (py_str (dict_get data "url")) = false ->
  exists r,
    scrape_beautifulsoup w data s
      = (Return r, MkState (calls s ++ [HttpGet (dict_get data "url")]) (sessions s))
    /\ get_total_found r = length (get_results r).
Proof.
  intros Hurl. unfold scrape_beautifulsoup. rewrite print_beautifulsoup_banner, Hurl. run.
  destruct (requests_get w (dict_get data "url")) as [resp|e]; simpl.
  - destruct (raise_for_status resp) as [[]|e]; simpl.
    + destruct (BeautifulSoup w (response_text resp)) as [parsed|e]; simpl.
      * destruct (truthy (dict_get data "selector")); simpl; [|eauto].
        destruct (select parsed (dict_get data "selector")) as [tags|e]; simpl.
        -- destruct (extract_data_from_elements _ _ _) as [results|e]; simpl; [eauto|].
           destruct (is_request_exception e); simpl; eauto.
        -- destruct (is_request_exception e); simpl; eauto.
      * destruct (is_request_exception e); simpl; eauto.
    + destruct (is_request_exception e); simpl; eauto.
  - destruct (is_request_exception e); simpl; eauto.
Qed.

(** Once it holds a driver, [scrape_selenium] drives that browser and nothing
    else: no page is asked over HTTP, no driver is installed, no session is
    opened or closed. *)
Lemma selenium_session_runs (w : world) (driver : WebDriver)
    (url selector attribute wait_time : py_value) (start_time : Z) (s : state) :
  exists o tr,
    selenium_session w driver url selector attribute wait_time start_time s
      = (o, MkState (calls s ++ tr) (sessions s))
    /\ forallb drives_browser tr = true.
Proof.
  unfold selenium_session. rewrite print_timeout_notice. run.
  destruct (driver_get (chrome driver) url) as [[]|e]; simpl;
    [|by eexists _, [_]].
  destruct (wait_until (chrome driver) wait_time selector) as [[]|e]; simpl.
  - destruct (find_elements (chrome driver) selector) as [els|e]; simpl;
      [destruct (extract_data_from_elements _ _ _) as [results|e]; simpl|];
      eexists _, [_; _; _; _]; repeat rewrite <- app_assoc; by simpl.
  - destruct (is_timeout_exception e); simpl.
    + destruct (find_elements (chrome driver) selector) as [els|e']; simpl;
        [destruct (extract_data_from_elements _ _ _) as [results|e']; simpl|];
        eexists _, [_; _; _; _]; repeat rewrite <- app_assoc; by simpl.
    + eexists _, [_; _]; repeat rewrite <- app_assoc; by simpl.
Qed.

Lemma count_calls_none (p : event -> bool) (tr : list event) :
  (forall ev, drives_browser ev = true -> p ev = false) ->
  forallb drives_browser tr = true ->
  count_calls p tr = 0%nat.
Proof.
  intros Hp. induction tr as [|ev tr IH]; simpl; [done|].
  intros [Hev Htr]%andb_prop. by rewrite (Hp ev Hev), IH.
Qed.

(** With a URL that cannot be printed, [scrape_selenium] stops at its first
    line too: no driver is installed, [driver] stays [None] and the
    [finally] clause has nothing to quit. *)
Lemma scrape_selenium_unprintable (w : world) (data : gmap pystr py_value) (s : state) :
  has_surrogate (py_str (dict_get data "url")) = true ->
  scrape_selenium w data s
  = (Return (Failure (exn_str (UnicodeEncodeError (selenium_banner (dict_get data "url"))))
               "Selenium"), s).
Proof.
  intros Hurl. unfold scrape_selenium, selenium_start.
  rewrite print_selenium_banner, Hurl. reflexivity.
Qed.

(** What [scrape_selenium] asks of the world, by how far it gets, with a URL
    that can be printed; it never raises and leaves the sessions as it found
    them. *)
Lemma scrape_selenium_calls (w : world) (data : gmap pystr py_value) (s : state) :
  has_surrogate (py_str (dict_get data "url")) = false ->
  exists r tr,
    scrape_selenium w data s = (Return r, MkState (calls s ++ DriverInstall :: tr) (sessions s))
    /\ match driver_install w, webdriver_Chrome w chrome_arguments with
       | Return _, Return _ =>
           exists mid,
             tr = ChromeStart chrome_arguments :: mid ++ [DriverQuit (fresh (sessions s))]
             /\ forallb drives_browser mid = true
       | Return _, Raise _ => tr = [ChromeStart chrome_arguments]
       | Raise _, _ => tr = []
       end.
Proof.
  intros Hurl. unfold scrape_selenium, selenium_start, setup_chrome_driver.
  rewrite print_selenium_banner, Hurl. run.
  destruct (driver_install w) as [path|e]; simpl; [|by eexists _, _].
  destruct (webdriver_Chrome w chrome_arguments) as [b|e]; simpl;
    [|eexists _, _; by rewrite <- app_assoc].
  match goal with
  | |- context [selenium_session ?w ?d ?u ?sel ?a ?wt ?st ?s0] =>
      destruct (selenium_session_runs w d u sel a wt st s0) as (o & mid & -> & Hmid)
  end.
  simpl. rewrite close_fresh_session. eexists _, _. split; [|by exists mid].
  by repeat (rewrite <- app_assoc; simpl).
Qed.

(** [scrape_selenium], with a URL that can be printed, never raises, starts
    with the driver installation, asks the world for no page over HTTP and
    installs no second driver. *)
Lemma scrape_selenium_runs (w : world) (data : gmap pystr py_value) (s : state) :
  has_surrogate (py_str (dict_get data "url")) = false ->
  exists r tr,
    scrape_selenium w data s
      = (Return r, MkState (calls s ++ DriverInstall :: tr) (sessions s))
    /\ count_calls is_http_get tr = 0%nat
    /\ count_calls is_driver_install tr = 0%nat.
Proof.
  intros Hurl.
  destruct (scrape_selenium_calls w data s Hurl) as (r & tr & Hrun & Htr).
  exists r, tr. split; [done|].
  destruct (driver_install w); [|by subst].
  destruct (webdriver_Chrome w chrome_arguments); [|by subst].
  destruct Htr as (mid & -> & Hmid). simpl.
  rewrite !count_calls_app. simpl.
  rewrite !count_calls_none; try done; by intros [].
Qed.

Lemma get_method_set_method (r : response) (label : pystr) :
  get_method (set_method r label) = label.
Proof. by destruct r. Qed.


(** ** The Fallback Orchestrator: [scrape_auto] *)



Example auto_on_static_site :
  (scrape_auto static_site h1_request initial).1
  = Return (Success [MkItem "Hello" 1] "Beautiful Soup (Auto)" 1 1)
  /\ calls (scrape_auto static_site h1_request initial).2
     = [HttpGet (PyStr "https://example.com")].
Proof. split; vm_compute; reflexivity. Qed.

Example auto_on_slow_site :
  (scrape_auto slow_site h1_request initial).1
  = Return (Success [MkItem "Hello" 1; MkItem "[Error extracting Text Content]" 2]
              "Selenium (Auto Fallback)" 6 2)
  /\ calls (scrape_auto slow_site h1_request initial).2
     = [HttpGet (PyStr "https://example.com"); DriverInstall; ChromeStart chrome_arguments;
        DriverGet 0 (PyStr "https://example.com");
        WaitUntil 0 (PyInt 10) (PyStr "h1"); Sleep 2; FindElements 0 (PyStr "h1");
        DriverQuit 0]
  /\ sessions (scrape_auto slow_site h1_request initial).2 = ∅.
Proof. repeat split; vm_compute; reflexivity. Qed.

(** ** The rendered strategy: [setup_chrome_driver] and [scrape_selenium] *)

(** C6. Whatever the world answers, when [scrape_selenium] returns the
    sessions alive are those that were alive when it was called.  When the
    browser started, the session it opened is closed by the last call made,
    after everything sent to the browser, on the way out of a success, of a
    wait that timed out and of any exception alike; when the driver or the
    browser did not start, or the handler stopped before it asked for them,
    there was no session to close and no command is sent. *)
Theorem scrape_selenium_releases_session
    (w : world) (data : gmap pystr py_value) (s : state) :
  exists r tr,
    scrape_selenium w data s = (Return r, MkState (calls s ++ tr) (sessions s))
    /\ (fresh (sessions s) ∉ sessions s)
    /\ if has_surrogate (py_str (dict_get data "url")) then tr = []
       else
         match driver_install w, webdriver_Chrome w chrome_arguments with
         | Return _, Return _ =>
             exists mid,
               tr = [DriverInstall; ChromeStart chrome_arguments] ++ mid
                      ++ [DriverQuit (fresh (sessions s))]
               /\ forallb drives_browser mid = true
         | Return _, Raise _ => tr = [DriverInstall; ChromeStart chrome_arguments]
         | Raise _, _ => tr = [DriverInstall]
         end.
Proof.
  destruct (has_surrogate (py_str (dict_get data "url"))) eqn:Hurl.
  - eexists _, []. rewrite app_nil_r, state_eta.
    split; [by apply scrape_selenium_unprintable|]. split; [apply is_fresh|done].
  - destruct (scrape_selenium_calls w data s Hurl) as (r & tr & Hrun & Htr).
    exists r, (DriverInstall :: tr). split; [done|]. split; [apply is_fresh|].
    destruct (driver_install w); [|by subst].
    destruct (webdriver_Chrome w chrome_arguments); [|by subst].
    destruct Htr as (mid & -> & Hmid). by exists mid.
Qed.

(** C7. When the browser has started, the page has loaded and the wait for
    the selector times out, the timeout is dropped: nothing of it shows in
    the answer.  The handler pauses, asks the browser for the elements that
    match now and goes through them; the answer is the success made of the
    records of these elements, as after a wait that found the selector.
    Only a fault of the query or of the extraction itself, a fault of their
    own and not of the wait, is answered as a failure; the browser is quit
    either way. *)
Theorem wait_timeout_is_absorbed
    (w : world) (data : gmap pystr py_value) (s : state)
    (path : pystr) (b : browser) (e : exn) :
  let url := dict_get data "url" in
  let selector := dict_get data "selector" in
  let attribute := dict_get_default data "attribute" (PyStr "Text Content") in
  let wait_time := dict_get_default data "wait_time" (PyInt 10) in
  let sid := fresh (sessions s) in
  prints (py_str url) = true ->
  driver_install w = Return path ->
  webdriver_Chrome w chrome_arguments = Return b ->
  driver_get b url = Return tt ->
  wait_until b wait_time selector = Raise e ->
  is_timeout_exception e = true ->
  exists t,
    scrape_selenium w data s
    = (Return
         match find_elements b selector with
         | Return elements =>
             match extract_data_from_elements (map SeElement elements) attribute "selenium" with
             | Return results => Success results "Selenium" t (length results)
             | Raise fault => selenium_except fault
             end
         | Raise fault => selenium_except fault
         end,
       MkState (calls s ++ [DriverInstall; ChromeStart chrome_arguments;
                            DriverGet sid url; WaitUntil sid wait_time selector;
                            Sleep 2; FindElements sid selector; DriverQuit sid])
               (sessions s)).
Proof.
  intros url selector attribute wait_time sid Hurl Hinst Hchrome Hget Hwait Htimeout.
  subst url selector attribute wait_time sid.
  apply negb_true_iff in Hurl.
  unfold scrape_selenium, selenium_start, setup_chrome_driver, selenium_session.
  rewrite print_selenium_banner, Hurl, print_timeout_notice. run.
  rewrite Hinst. simpl. rewrite Hchrome. simpl.
  rewrite Hget. simpl. rewrite Hwait. simpl. rewrite Htimeout. simpl.
  destruct (find_elements b (dict_get data "selector")) as [elements|fault]; simpl.
  - destruct (extract_data_from_elements _ _ _) as [results|fault]; simpl;
      rewrite close_fresh_session; [eexists|exists 0];
      repeat (rewrite <- app_assoc; simpl); reflexivity.
  - rewrite close_fresh_session. exists 0.
    repeat (rewrite <- app_assoc; simpl). reflexivity.
Qed.

Lemma wait_timeout_is_absorbed_witness :
  exists t,
    scrape_selenium slow_site h1_request initial
    = (Return
         match find_elements slow_browser (dict_get h1_request "selector") with
         | Return elements =>
             match extract_data_from_elements (map SeElement elements)
                     (dict_get_default h1_request "attribute" (PyStr "Text Content"))
                     "selenium" with
             | Return results => Success results "Selenium" t (length results)
             | Raise fault => selenium_except fault
             end
         | Raise fault => selenium_except fault
         end,
       MkState (calls initial
                  ++ [DriverInstall; ChromeStart chrome_arguments;
                      DriverGet (fresh (sessions initial)) (dict_get h1_request "url");
                      WaitUntil (fresh (sessions initial))
                        (dict_get_default h1_request "wait_time" (PyInt 10))
                        (dict_get h1_request "selector");
                      Sleep 2;
                      FindElements (fresh (sessions initial)) (dict_get h1_request "selector");
                      DriverQuit (fresh (sessions initial))])
               (sessions initial)).
Proof.
  apply (wait_timeout_is_absorbed slow_site h1_request initial
           "/usr/bin/chromedriver" slow_browser timeout);
    reflexivity.
Defined.

Example wait_timeout_ex :
  (scrape_selenium slow_site h1_request initial).1
  = Return (Success [MkItem "Hello" 1; MkItem "[Error extracting Text Content]" 2]
              "Selenium" 6 2).
Proof. vm_compute. reflexivity. Qed.

(** ** The static strategy: [scrape_beautifulsoup] *)

Lemma selector_empty_or_absent_falsy (data : gmap pystr py_value) :
  selector_empty_or_absent data = true -> truthy (dict_get data "selector") = false.
Proof.
  unfold selector_empty_or_absent, dict_get.
  destruct (data !! "selector") as [[| | |sel|]|]; simpl; try done.
  by destruct sel.
Qed.

(** C8. When the page is fetched, its status is not an error and it is
    parsed, a request whose selector is empty or absent is answered with a
    success that has no results and a count of 0: the selector step yields
    the empty sequence, and the parsed page is not asked to select
    anything. *)
Theorem empty_selector_is_not_an_error
    (w : world) (data : gmap pystr py_value) (s : state)
    (page : http_response) (parsed : soup) :
  prints (py_str (dict_get data "url")) = true ->
  requests_get w (dict_get data "url") = Return page ->
  raise_for_status page = Return tt ->
  BeautifulSoup w (response_text page) = Return parsed ->
  selector_empty_or_absent data = true ->
  exists t,
    scrape_beautifulsoup w data s
    = (Return (Success [] "Beautiful Soup" t 0),
       MkState (calls s ++ [HttpGet (dict_get data "url")]) (sessions s)).
Proof.
  intros Hurl%negb_true_iff Hget Hstatus Hparse Hsel%selector_empty_or_absent_falsy.
  unfold scrape_beautifulsoup. rewrite print_beautifulsoup_banner, Hurl. run.
  rewrite Hget. simpl. rewrite Hstatus. simpl. rewrite Hparse. simpl.
  rewrite Hsel. simpl. eauto.
Qed.

Lemma empty_selector_is_not_an_error_witness :
  exists t,
    scrape_beautifulsoup static_site no_selector_request initial
    = (Return (Success [] "Beautiful Soup" t 0),
       MkState (calls initial ++ [HttpGet (dict_get no_selector_request "url")])
               (sessions initial)).
Proof.
  apply (empty_selector_is_not_an_error static_site no_selector_request initial
           (page_of "<h1> Hello </h1>")
           (MkSoup (fun selector => Return (if is_h1 selector then [h1_hello] else []))));
    reflexivity.
Defined.

Example empty_selector_ex :
  (scrape_beautifulsoup static_site empty_selector_request initial).1
  = Return (Success [] "Beautiful Soup" 1 0).
Proof. vm_compute. reflexivity. Qed.

(** ** The static strategy, further *)

(** X8. When the page is fetched, its status is not an error, it is parsed,
    the selector, not empty, matches some tags and the batch of these tags
    is returned, [scrape_beautifulsoup] answers with a success that holds
    that batch and counts its records; the page is asked for once. *)
Theorem static_success_counts_matches
    (w : world) (data : gmap pystr py_value) (s : state)
    (page : http_response) (parsed : soup) (tags : list Tag) (results : list result_item) :
  prints (py_str (dict_get data "url")) = true ->
  requests_get w (dict_get data "url") = Return page ->
  raise_for_status page = Return tt ->
  BeautifulSoup w (response_text page) = Return parsed ->
  truthy (dict_get data "selector") = true ->
  select parsed (dict_get data "selector") = Return tags ->
  extract_data_from_elements (map BsTag tags)
    (dict_get_default data "attribute" (PyStr "Text Content")) "beautifulsoup"
  = Return results ->
  exists t,
    scrape_beautifulsoup w data s
    = (Return (Success results "Beautiful Soup" t (length results)),
       MkState (calls s ++ [HttpGet (dict_get data "url")]) (sessions s)).
Proof.
  intros Hurl%negb_true_iff Hget Hstatus Hparse Hsel Htags Hbatch.
  unfold scrape_beautifulsoup. rewrite print_beautifulsoup_banner, Hurl. run.
  rewrite Hget. simpl. rewrite Hstatus. simpl. rewrite Hparse. simpl.
  rewrite Hsel, Htags. simpl. rewrite Hbatch. simpl. eauto.
Qed.

Lemma static_success_counts_matches_witness :
  exists t,
    scrape_beautifulsoup static_site h1_request initial
    = (Return (Success [MkItem "Hello" 1] "Beautiful Soup" t (length [MkItem "Hello" 1])),
       MkState (calls initial ++ [HttpGet (dict_get h1_request "url")]) (sessions initial)).
Proof.
  apply (static_success_counts_matches static_site h1_request initial
           (page_of "<h1> Hello </h1>")
           (MkSoup (fun selector => Return (if is_h1 selector then [h1_hello] else [])))
           [h1_hello] [MkItem "Hello" 1]); reflexivity.
Defined.

(** X9. A page that comes back with a status from 400 to 599 is answered as
    a network error that names the status, the reason and the address,
    whatever the selector and whatever the parser would do. *)
Theorem http_error_status_is_network_error
    (w : world) (data : gmap pystr py_value) (s : state) (page : http_response) :
  prints (py_str (dict_get data "url")) = true ->
  requests_get w (dict_get data "url") = Return page ->
  400 <= status_code page < 600 ->
  (scrape_beautifulsoup w data s).1
  = Return (Failure
              ("Network error: " +:+ int_str (status_code page) +:+ " "
                 +:+ (if status_code page <? 500 then "Client" else "Server")
                 +:+ " Error: " +:+ reason page +:+ " for url: " +:+ response_url page)
              "Beautiful Soup").
Proof.
  intros Hurl%negb_true_iff Hget Hstatus.
  unfold scrape_beautifulsoup. rewrite print_beautifulsoup_banner, Hurl. run.
  rewrite Hget. simpl.
  unfold raise_for_status.
  destruct (status_code page <? 500) eqn:Hlt.
  - replace (400 <=? status_code page) with true by lia. simpl. done.
  - replace (400 <=? status_code page) with true by lia.
    replace (500 <=? status_code page) with true by lia.
    replace (status_code page <? 600) with true by lia. simpl. done.
Qed.

Lemma http_error_status_is_network_error_witness :
  (scrape_beautifulsoup not_found_site h1_request initial).1
  = Return (Failure
              ("Network error: "
                 +:+ int_str (status_code (MkHttpResponse 404 "Not Found"
                                             "https://example.com/missing" "")) +:+ " "
                 +:+ (if status_code (MkHttpResponse 404 "Not Found"
                                        "https://example.com/missing" "") <? 500
                      then "Client" else "Server")
                 +:+ " Error: "
                 +:+ reason (MkHttpResponse 404 "Not Found" "https://example.com/missing" "")
                 +:+ " for url: "
                 +:+ response_url (MkHttpResponse 404 "Not Found"
                                     "https://example.com/missing" ""))
              "Beautiful Soup").
Proof.
  apply (http_error_status_is_network_error not_found_site h1_request initial
           (MkHttpResponse 404 "Not Found" "https://example.com/missing" "")).
  - reflexivity.
  - reflexivity.
  - simpl. lia.
Defined.

Example not_found_ex :
  (scrape_beautifulsoup not_found_site h1_request initial).1
  = Return (Failure
              "Network error: 404 Client Error: Not Found for url: https://example.com/missing"
              "Beautiful Soup").
Proof. vm_compute. reflexivity. Qed.

(** X10. A selector the parsed page rejects is answered as a failure that
    carries the message of the exception, without the "Network error: "
    prefix unless the exception is one of [requests]; the fault does not
    leave the handler. *)
Theorem rejected_selector_is_failure
    (w : world) (data : gmap pystr py_value) (s : state)
    (page : http_response) (parsed : soup) (e : exn) :
  prints (py_str (dict_get data "url")) = true ->
  requests_get w (dict_get data "url") = Return page ->
  raise_for_status page = Return tt ->
  BeautifulSoup w (response_text page) = Return parsed ->
  truthy (dict_get data "selector") = true ->
  select parsed (dict_get data "selector") = Raise e ->
  is_request_exception e = false ->
  scrape_beautifulsoup w data s
  = (Return (Failure (exn_str e) "Beautiful Soup"),
     MkState (calls s ++ [HttpGet (dict_get data "url")]) (sessions s)).
Proof.
  intros Hurl%negb_true_iff Hget Hstatus Hparse Hsel Hrej Hclass.
  unfold scrape_beautifulsoup. rewrite print_beautifulsoup_banner, Hurl. run.
  rewrite Hget. simpl. rewrite Hstatus. simpl. rewrite Hparse. simpl.
  rewrite Hsel, Hrej. simpl. by rewrite Hclass.
Qed.

Lemma rejected_selector_is_failure_witness :
  scrape_beautifulsoup strict_site h1_request initial
  = (Return (Failure (exn_str bad_selector) "Beautiful Soup"),
     MkState (calls initial ++ [HttpGet (dict_get h1_request "url")]) (sessions initial)).
Proof.
  apply (rejected_selector_is_failure strict_site h1_request initial
           (page_of "<h1> Hello </h1>") (MkSoup (fun _ => Raise bad_selector)) bad_selector);
    reflexivity.
Defined.

(** ** The rendered strategy, further *)

(** X11. A fault while the page is loaded, a timeout included, is not
    absorbed: the handler neither waits nor pauses nor queries, quits the
    browser, and answers with a failure, labelled a WebDriver error when the
    exception is one of the driver's. *)
Theorem navigation_fault_is_failure
    (w : world) (data : gmap pystr py_value) (s : state)
    (path : pystr) (b : browser) (e : exn) :
  prints (py_str (dict_get data "url")) = true ->
  driver_install w = Return path ->
  webdriver_Chrome w chrome_arguments = Return b ->
  driver_get b (dict_get data "url") = Raise e ->
  scrape_selenium w data s
  = (Return (if is_webdriver_exception e
             then Failure ("WebDriver error: " +:+ exn_str e) "Selenium"
             else Failure (exn_str e) "Selenium"),
     MkState (calls s ++ [DriverInstall; ChromeStart chrome_arguments;
                          DriverGet (fresh (sessions s)) (dict_get data "url");
                          DriverQuit (fresh (sessions s))])
             (sessions s)).
Proof.
  intros Hurl%negb_true_iff Hinst Hchrome Hget.
  unfold scrape_selenium, selenium_start, setup_chrome_driver, selenium_session.
  rewrite print_selenium_banner, Hurl, print_timeout_notice. run.
  rewrite Hinst. simpl. rewrite Hchrome. simpl. rewrite Hget. simpl.
  rewrite close_fresh_session. by repeat (rewrite <- app_assoc; simpl).
Qed.

Lemma navigation_fault_is_failure_witness :
  scrape_selenium stuck_site h1_request initial
  = (Return (if is_webdriver_exception timeout
             then Failure ("WebDriver error: " +:+ exn_str timeout) "Selenium"
             else Failure (exn_str timeout) "Selenium"),
     MkState (calls initial
                ++ [DriverInstall; ChromeStart chrome_arguments;
                    DriverGet (fresh (sessions initial)) (dict_get h1_request "url");
                    DriverQuit (fresh (sessions initial))])
             (sessions initial)).
Proof.
  apply (navigation_fault_is_failure stuck_site h1_request initial
           "/usr/bin/chromedriver" stuck_browser timeout); reflexivity.
Defined.

(** X12. Only a timeout of the wait is absorbed: when the wait raises
    anything else the handler neither pauses nor queries the page, quits the
    browser and answers with a failure. *)
Theorem wait_fault_is_failure
    (w : world) (data : gmap pystr py_value) (s : state)
    (path : pystr) (b : browser) (e : exn) :
  prints (py_str (dict_get data "url")) = true ->
  driver_install w = Return path ->
  webdriver_Chrome w chrome_arguments = Return b ->
  driver_get b (dict_get data "url") = Return tt ->
  wait_until b (dict_get_default data "wait_time" (PyInt 10)) (dict_get data "selector")
    = Raise e ->
  is_timeout_exception e = false ->
  scrape_selenium w data s
  = (Return (if is_webdriver_exception e
             then Failure ("WebDriver error: " +:+ exn_str e) "Selenium"
             else Failure (exn_str e) "Selenium"),
     MkState (calls s ++ [DriverInstall; ChromeStart chrome_arguments;
                          DriverGet (fresh (sessions s)) (dict_get data "url");
                          WaitUntil (fresh (sessions s))
                            (dict_get_default data "wait_time" (PyInt 10))
                            (dict_get data "selector");
                          DriverQuit (fresh (sessions s))])
             (sessions s)).
Proof.
  intros Hurl%negb_true_iff Hinst Hchrome Hget Hwait Hclass.
  unfold scrape_selenium, selenium_start, setup_chrome_driver, selenium_session.
  rewrite print_selenium_banner, Hurl, print_timeout_notice. run.
  rewrite Hinst. simpl. rewrite Hchrome. simpl. rewrite Hget. simpl.
  rewrite Hwait. simpl. rewrite Hclass. simpl.
  rewrite close_fresh_session. by repeat (rewrite <- app_assoc; simpl).
Qed.

Lemma wait_fault_is_failure_witness :
  scrape_selenium broken_wait_site h1_request initial
  = (Return (if is_webdriver_exception unreachable
             then Failure ("WebDriver error: " +:+ exn_str unreachable) "Selenium"
             else Failure (exn_str unreachable) "Selenium"),
     MkState (calls initial
                ++ [DriverInstall; ChromeStart chrome_arguments;
                    DriverGet (fresh (sessions initial)) (dict_get h1_request "url");
                    WaitUntil (fresh (sessions initial))
                      (dict_get_default h1_request "wait_time" (PyInt 10))
                      (dict_get h1_request "selector");
                    DriverQuit (fresh (sessions initial))])
             (sessions initial)).
Proof.
  apply (wait_fault_is_failure broken_wait_site h1_request initial
           "/usr/bin/chromedriver" broken_wait_browser unreachable); reflexivity.
Defined.

Lemma same_but_time_refl (r : response) : same_but_time r r.
Proof. by repeat split. Qed.

(** X13. Whether the wait finds the selector or times out makes no
    difference but to the time: two worlds that differ only in that and in
    their clocks, the browser answering alike to the page load and to the
    query, make the same calls, leave the same sessions and give answers
    that agree in everything except the time they report. *)
Theorem wait_outcome_makes_no_difference
    (w w' : world) (data : gmap pystr py_value) (s : state)
    (b b' : browser) (e : exn) :
  driver_install w' = driver_install w ->
  webdriver_Chrome w chrome_arguments = Return b ->
  webdriver_Chrome w' chrome_arguments = Return b' ->
  driver_get b' (dict_get data "url") = driver_get b (dict_get data "url") ->
  find_elements b' (dict_get data "selector") = find_elements b (dict_get data "selector") ->
  wait_until b (dict_get_default data "wait_time" (PyInt 10)) (dict_get data "selector")
    = Return tt ->
  wait_until b' (dict_get_default data "wait_time" (PyInt 10)) (dict_get data "selector")
    = Raise e ->
  is_timeout_exception e = true ->
  exists r r' st st',
    scrape_selenium w data s = (Return r, st)
    /\ scrape_selenium w' data s = (Return r', st')
    /\ same_but_time r r'
    /\ calls st = calls st'
    /\ sessions st = sessions st'.
Proof.
  intros Hinst Hb Hb' Hget Hfind Hwait Hwait' Htimeout.
  destruct (has_surrogate (py_str (dict_get data "url"))) eqn:Hurl.
  { rewrite !scrape_selenium_unprintable by done.
    eexists _, _, _, _. split; [done|]. split; [done|]. by repeat split. }
  unfold scrape_selenium, selenium_start, setup_chrome_driver, selenium_session.
  rewrite print_selenium_banner, Hurl, print_timeout_notice. run.
  rewrite Hinst. destruct (driver_install w) as [path|e0]; simpl;
    [|eexists _, _, _, _; split; [done|]; split; [done|]; by repeat split].
  rewrite Hb, Hb'. simpl. rewrite Hget.
  destruct (driver_get b (dict_get data "url")) as [[]|e1]; simpl;
    [|eexists _, _, _, _; split; [done|]; split; [done|]; by repeat split].
  rewrite Hwait, Hwait'. simpl. rewrite Htimeout. simpl. rewrite Hfind.
  destruct (find_elements b (dict_get data "selector")) as [els|e2]; simpl;
    [|eexists _, _, _, _; split; [done|]; split; [done|]; by repeat split].
  destruct (extract_data_from_elements _ _ _) as [results|e3]; simpl;
    eexists _, _, _, _; (split; [done|]); (split; [done|]); by repeat split.
Qed.

Lemma wait_outcome_makes_no_difference_witness :
  exists r r' st st',
    scrape_selenium static_site h1_request initial = (Return r, st)
    /\ scrape_selenium late_site h1_request initial = (Return r', st')
    /\ same_but_time r r'
    /\ calls st = calls st'
    /\ sessions st = sessions st'.
Proof.
  apply (wait_outcome_makes_no_difference static_site late_site h1_request initial
           plain_browser late_browser timeout); reflexivity.
Defined.

Example late_site_ex :
  (scrape_selenium static_site h1_request initial).1
  = Return (Success [MkItem "Hello" 1] "Selenium" 6 1)
  /\ (scrape_selenium late_site h1_request initial).1
     = Return (Success [MkItem "Hello" 1] "Selenium" 6000 1).
Proof. split; vm_compute; reflexivity. Qed.

(** ** The orchestrator, further *)

(** X14. Whatever the world answers, [scrape_auto] returns an answer: it
    never raises, the sessions alive are those that were alive before, the
    page was fetched at most once and the browser set up at most once.  The
    label "Auto" of its own handler is the label of the answer exactly when
    the URL cannot be printed, and then nothing was called; otherwise the
    label is one of the two of the policy and the page was fetched once. *)
Theorem scrape_auto_leaves_no_session
    (w : world) (data : gmap pystr py_value) (s : state) :
  exists r tr,
    scrape_auto w data s = (Return r, MkState (calls s ++ tr) (sessions s))
    /\ (if has_surrogate (py_str (dict_get data "url"))
        then get_method r = "Auto" /\ tr = []
        else (get_method r = "Beautiful Soup (Auto)"
              \/ get_method r = "Selenium (Auto Fallback)")
             /\ static_invocations tr = 1%nat)
    /\ (static_invocations tr <= 1)%nat
    /\ (rendered_invocations tr <= 1)%nat.
Proof.
  unfold scrape_auto. rewrite print_auto_banner, print_fallback_notice.
  destruct (has_surrogate (py_str (dict_get data "url"))) eqn:Hurl.
  { eexists _, []. rewrite app_nil_r, state_eta. split; [reflexivity|].
    split; [done|]. unfold static_invocations, rendered_invocations. simpl. lia. }
  destruct (scrape_beautifulsoup_runs w data s Hurl) as (bs_data & Hbs & _).
  unfold try_except, lift, mbind, M_bind. rewrite Hbs.
  destruct (get_success bs_data && (0 <? get_total_found bs_data)%nat); simpl.
  - eexists _, _. split; [done|]. rewrite get_method_set_method.
    split; [split; [by left|done]|].
    unfold static_invocations, rendered_invocations. simpl. lia.
  - match goal with
    | |- context [scrape_selenium w data ?s1] =>
        destruct (scrape_selenium_runs w data s1 Hurl) as (r & tr & Hse & Hget & Hinst)
    end.
    rewrite Hse. simpl in *. eexists _, (_ :: _ :: tr).
    split; [by rewrite <- app_assoc|]. rewrite get_method_set_method.
    unfold static_invocations, rendered_invocations. simpl. rewrite Hget, Hinst.
    split; [split; [by right|done]|]. lia.
Qed.

(** X22. A URL that cannot be printed stops each of the three scraping
    handlers at its first line, the print of the URL: nothing is asked of
    the world, no browser is started, and the answer is a failure that
    carries the message of the encoder under the handler's own label. *)
Theorem unprintable_url_stops_every_handler
    (w : world) (data : gmap pystr py_value) (s : state) :
  prints (py_str (dict_get data "url")) = false ->
  scrape_beautifulsoup w data s
  = (Return (Failure
       (exn_str (UnicodeEncodeError (beautifulsoup_banner (dict_get data "url"))))
       "Beautiful Soup"), s)
  /\ scrape_selenium w data s
     = (Return (Failure
          (exn_str (UnicodeEncodeError (selenium_banner (dict_get data "url"))))
          "Selenium"), s)
  /\ scrape_auto w data s
     = (Return (Failure
          (exn_str (UnicodeEncodeError (auto_banner (dict_get data "url"))))
          "Auto"), s).
Proof.
  intros Hurl%negb_false_iff.
  split; [by apply scrape_beautifulsoup_unprintable|].
  split; [by apply scrape_selenium_unprintable|].
  unfold scrape_auto. by rewrite print_auto_banner, Hurl.
Qed.

Lemma unprintable_url_stops_every_handler_witness :
  scrape_beautifulsoup static_site lone_url_request initial
  = (Return (Failure
       "'utf-8' codec can't encode character '\ud800' in position 26: surrogates not allowed"
       "Beautiful Soup"), initial)
  /\ scrape_selenium static_site lone_url_request initial
     = (Return (Failure
          "'utf-8' codec can't encode character '\ud800' in position 21: surrogates not allowed"
          "Selenium"), initial)
  /\ scrape_auto static_site lone_url_request initial
     = (Return (Failure
          "'utf-8' codec can't encode character '\ud800' in position 17: surrogates not allowed"
          "Auto"), initial).
Proof.
  apply (unprintable_url_stops_every_handler static_site lone_url_request initial).
  reflexivity.
Defined.

(** X23. Chrome is started at most once by [scrape_selenium]: not at all
    when the URL cannot be printed or the driver cannot be installed, once
    otherwise, and then with the nine arguments of [setup_chrome_driver] in
    their order, of which the first asks for a headless browser and the
    seventh is the switch "--disable-javascript". *)
Theorem chrome_is_started_with_the_switches
    (w : world) (data : gmap pystr py_value) (s : state) :
  exists r tr,
    scrape_selenium w data s = (Return r, MkState (calls s ++ tr) (sessions s))
    /\ (chrome_starts tr = [] \/ chrome_starts tr = [chrome_arguments])
    /\ (if has_surrogate (py_str (dict_get data "url")) then chrome_starts tr = []
        else match driver_install w with
             | Return _ => chrome_starts tr = [chrome_arguments]
             | Raise _ => chrome_starts tr = []
             end)
    /\ length chrome_arguments = 9%nat
    /\ chrome_arguments !! 0%nat = Some "--headless=new"
    /\ chrome_arguments !! 6%nat = Some "--disable-javascript".
Proof.
  assert (forall mid, forallb drives_browser mid = true -> chrome_starts mid = []) as Hmid.
  { induction mid as [|ev mid IH]; [done|]. simpl.
    intros [Hev Hrest]%andb_prop. destruct ev; try done; by apply IH. }
  assert (forall mid sid, forallb drives_browser mid = true ->
            chrome_starts (mid ++ [DriverQuit sid]) = []) as Hquit.
  { induction mid as [|ev mid IH]; [done|]. simpl.
    intros sid [Hev Hrest]%andb_prop. destruct ev; try done; by apply IH. }
  destruct (has_surrogate (py_str (dict_get data "url"))) eqn:Hurl.
  - eexists _, []. rewrite app_nil_r, state_eta.
    split; [by apply scrape_selenium_unprintable|]. split; [by left|]. done.
  - destruct (scrape_selenium_calls w data s Hurl) as (r & tr & Hrun & Htr).
    exists r, (DriverInstall :: tr). split; [done|].
    destruct (driver_install w); [|subst; by repeat split; try left].
    destruct (webdriver_Chrome w chrome_arguments).
    + destruct Htr as (mid & -> & Hdrives). simpl. rewrite (Hquit mid _ Hdrives).
      split; [by right|]. by repeat split.
    + subst. simpl. split; [by right|]. by repeat split.
Qed.

(** ** Requests that leave a key out *)

Lemma dict_get_insert_ne (d : gmap pystr py_value) (k k' : pystr) (v : py_value) :
  k <> k' -> dict_get (<[k := v]> d) k' = dict_get d k'.
Proof. intros Hne. unfold dict_get. by rewrite lookup_insert_ne. Qed.

Lemma dict_get_default_insert_ne
    (d : gmap pystr py_value) (k k' : pystr) (v dflt : py_value) :
  k <> k' -> dict_get_default (<[k := v]> d) k' dflt = dict_get_default d k' dflt.
Proof. intros Hne. unfold dict_get_default. by rewrite lookup_insert_ne. Qed.

Lemma dict_get_default_insert_missing
    (d : gmap pystr py_value) (k : pystr) (dflt : py_value) :
  d !! k = None -> dict_get_default (<[k := dflt]> d) k dflt = dict_get_default d k dflt.
Proof. intros Hk. unfold dict_get_default. by rewrite lookup_insert_eq, Hk. Qed.

(** X15. A request without the key "attribute" is answered as the same
    request asking for "Text Content", by each of the three handlers. *)
Theorem missing_attribute_is_text_content
    (w : world) (data : gmap pystr py_value) (s : state) :
  data !! "attribute" = None ->
  scrape_beautifulsoup w (<["attribute" := PyStr "Text Content"]> data) s
    = scrape_beautifulsoup w data s
  /\ scrape_selenium w (<["attribute" := PyStr "Text Content"]> data) s
     = scrape_selenium w data s
  /\ scrape_auto w (<["attribute" := PyStr "Text Content"]> data) s
     = scrape_auto w data s.
Proof.
  intros Hmissing.
  assert (Hbs : forall s0,
    scrape_beautifulsoup w (<["attribute" := PyStr "Text Content"]> data) s0
    = scrape_beautifulsoup w data s0).
  { intros s0. unfold scrape_beautifulsoup.
    rewrite !dict_get_insert_ne by done.
    by rewrite dict_get_default_insert_missing. }
  assert (Hse : forall s0,
    scrape_selenium w (<["attribute" := PyStr "Text Content"]> data) s0
    = scrape_selenium w data s0).
  { intros s0. unfold scrape_selenium.
    rewrite !dict_get_insert_ne by done.
    rewrite (dict_get_default_insert_ne _ _ "wait_time") by done.
    by rewrite dict_get_default_insert_missing. }
  split; [done|]. split; [done|].
  unfold scrape_auto, try_except, mbind, M_bind.
  rewrite dict_get_insert_ne by done.
  destruct (lift (print (auto_banner (dict_get data "url"))) s) as [[[]|e] s0]; [|done].
  rewrite Hbs.
  destruct (scrape_beautifulsoup w data s0) as [[bs_data|e] s1]; [|done].
  destruct (get_success bs_data && (0 <? get_total_found bs_data)%nat); [done|].
  destruct (lift (print fallback_notice) s1) as [[[]|e] s2]; [|done].
  by rewrite Hse.
Qed.

Lemma missing_attribute_is_text_content_witness :
  scrape_beautifulsoup static_site (<["attribute" := PyStr "Text Content"]> bare_request)
    initial
    = scrape_beautifulsoup static_site bare_request initial
  /\ scrape_selenium static_site (<["attribute" := PyStr "Text Content"]> bare_request)
       initial
     = scrape_selenium static_site bare_request initial
  /\ scrape_auto static_site (<["attribute" := PyStr "Text Content"]> bare_request) initial
     = scrape_auto static_site bare_request initial.
Proof.
  apply (missing_attribute_is_text_content static_site bare_request initial).
  reflexivity.
Defined.

(** X16. A request without the key "wait_time" is answered by the rendered
    strategy as the same request with a wait of 10; the static strategy does
    not look at the key at all. *)
Theorem missing_wait_time_is_ten
    (w : world) (data : gmap pystr py_value) (s : state) (any : py_value) :
  data !! "wait_time" = None ->
  scrape_selenium w (<["wait_time" := PyInt 10]> data) s = scrape_selenium w data s
  /\ scrape_beautifulsoup w (<["wait_time" := any]> data) s
     = scrape_beautifulsoup w data s.
Proof.
  intros Hmissing. split.
  - unfold scrape_selenium.
    rewrite !dict_get_insert_ne by done.
    rewrite (dict_get_default_insert_ne _ _ "attribute") by done.
    by rewrite dict_get_default_insert_missing.
  - unfold scrape_beautifulsoup.
    rewrite !dict_get_insert_ne by done.
    by rewrite (dict_get_default_insert_ne _ _ "attribute") by done.
Qed.

Lemma missing_wait_time_is_ten_witness :
  scrape_selenium slow_site (<["wait_time" := PyInt 10]> h1_request) initial
    = scrape_selenium slow_site h1_request initial
  /\ scrape_beautifulsoup slow_site (<["wait_time" := PyStr "soon"]> h1_request) initial
     = scrape_beautifulsoup slow_site h1_request initial.
Proof.
  apply (missing_wait_time_is_ten slow_site h1_request initial (PyStr "soon")).
  reflexivity.
Defined.

(** ** The time reported *)

Lemma nonnegative_time_set_method (r : response) (label : pystr) :
  nonnegative_time r -> nonnegative_time (set_method r label).
Proof. by destruct r. Qed.

Lemma static_time (w : world) (data : gmap pystr py_value) (s : state) :
  monotone_clock w ->
  exists r s', scrape_beautifulsoup w data s = (Return r, s') /\ nonnegative_time r.
Proof.
  intros Hclock.
  destruct (has_surrogate (py_str (dict_get data "url"))) eqn:Hurl.
  { rewrite scrape_beautifulsoup_unprintable by done. by eexists _, _. }
  unfold scrape_beautifulsoup. rewrite print_beautifulsoup_banner, Hurl. run.
  destruct (requests_get w (dict_get data "url")) as [resp|e]; simpl;
    [|destruct (is_request_exception e); by eexists _, _].
  destruct (raise_for_status resp) as [[]|e]; simpl;
    [|destruct (is_request_exception e); by eexists _, _].
  destruct (BeautifulSoup w (response_text resp)) as [parsed|e]; simpl;
    [|destruct (is_request_exception e); by eexists _, _].
  assert (Hnonneg :
    0 <= time_time w (calls s ++ [HttpGet (dict_get data "url")]) - time_time w (calls s)).
  { specialize (Hclock (calls s) [HttpGet (dict_get data "url")]). lia. }
  destruct (truthy (dict_get data "selector")); simpl; [|by eexists _, _].
  destruct (select parsed (dict_get data "selector")) as [tags|e]; simpl;
    [|destruct (is_request_exception e); by eexists _, _].
  destruct (extract_data_from_elements _ _ _) as [results|e]; simpl;
    [by eexists _, _|].
  destruct (is_request_exception e); by eexists _, _.
Qed.

Lemma rendered_time (w : world) (data : gmap pystr py_value) (s : state) :
  monotone_clock w ->
  exists r s', scrape_selenium w data s = (Return r, s') /\ nonnegative_time r.
Proof.
  intros Hclock.
  destruct (has_surrogate (py_str (dict_get data "url"))) eqn:Hurl.
  { rewrite scrape_selenium_unprintable by done. by eexists _, _. }
  assert (Hfail : forall e, nonnegative_time (selenium_except e)).
  { intros e. unfold selenium_except. by destruct (is_webdriver_exception e). }
  unfold scrape_selenium, selenium_start, setup_chrome_driver, selenium_session.
  rewrite print_selenium_banner, Hurl, print_timeout_notice. run.
  destruct (driver_install w) as [path|e]; simpl; [|by eexists _, _].
  destruct (webdriver_Chrome w chrome_arguments) as [b|e]; simpl; [|by eexists _, _].
  destruct (driver_get b (dict_get data "url")) as [[]|e]; simpl; [|by eexists _, _].
  destruct (wait_until b _ (dict_get data "selector")) as [[]|e]; simpl;
    [|destruct (is_timeout_exception e); simpl; [|by eexists _, _]];
    (destruct (find_elements b (dict_get data "selector")) as [els|e']; simpl;
     [|by eexists _, _]);
    (destruct (extract_data_from_elements _ _ _) as [results|e'']; simpl;
     [|by eexists _, _]);
    repeat (rewrite <- app_assoc; simpl);
    (eexists _, _; split; [done|]); unfold nonnegative_time; simpl;
    match goal with
    | |- 0 <= time_time w (calls s ++ ?tr) - _ => specialize (Hclock (calls s) tr); lia
    end.
Qed.

(** X17. With a clock that never goes back, the time an answer reports is
    never negative, for each of the three scraping handlers. *)
Theorem reported_time_is_not_negative
    (w : world) (data : gmap pystr py_value) (s : state) :
  monotone_clock w ->
  (exists r s', scrape_beautifulsoup w data s = (Return r, s') /\ nonnegative_time r)
  /\ (exists r s', scrape_selenium w data s = (Return r, s') /\ nonnegative_time r)
  /\ (exists r s', scrape_auto w data s = (Return r, s') /\ nonnegative_time r).
Proof.
  intros Hclock. split; [by apply static_time|]. split; [by apply rendered_time|].
  unfold scrape_auto. rewrite print_auto_banner, print_fallback_notice.
  destruct (has_surrogate (py_str (dict_get data "url"))); [by eexists _, _|].
  unfold try_except, lift, mbind, M_bind.
  destruct (static_time w data s Hclock) as (bs_data & s1 & -> & Hbs).
  destruct (get_success bs_data && (0 <? get_total_found bs_data)%nat); simpl.
  - eexists _, _. split; [done|]. by apply nonnegative_time_set_method.
  - destruct (rendered_time w data s1 Hclock) as (r & s2 & -> & Hr). simpl.
    eexists _, _. split; [done|]. by apply nonnegative_time_set_method.
Qed.

Lemma ticking_monotone (w : world) : time_time w = ticking -> monotone_clock w.
Proof.
  intros Hw tr tr'. rewrite Hw. unfold ticking. rewrite length_app. lia.
Qed.

Lemma reported_time_is_not_negative_witness :
  (exists r s', scrape_beautifulsoup slow_site h1_request initial = (Return r, s')
                /\ nonnegative_time r)
  /\ (exists r s', scrape_selenium slow_site h1_request initial = (Return r, s')
                   /\ nonnegative_time r)
  /\ (exists r s', scrape_auto slow_site h1_request initial = (Return r, s')
                   /\ nonnegative_time r).
Proof.
  apply (reported_time_is_not_negative slow_site h1_request initial).
  apply ticking_monotone. reflexivity.
Defined.

(** ** The Export Formatter: [export_csv] *)

(** What has been written stays at the front of the text. *)
Lemma write_rows_text (metadata : gmap pystr py_value) (i : nat)
    (results : list (gmap pystr py_value)) (output : pystr) :
  write_rows metadata i results output
  = output +:+ write_rows metadata i results EmptyStr.
Proof.
  revert i output. induction results as [|item rest IH]; intros i output; simpl.
  - by rewrite append_nil_r.
  - rewrite IH. rewrite (IH _ (writerow _ EmptyStr)).
    unfold writerow. simpl. by rewrite append_assoc.
Qed.

(** The rows are written one record each, in the order of the list. *)
Lemma write_rows_records (metadata : gmap pystr py_value) (i : nat)
    (results : list (gmap pystr py_value)) :
  write_rows metadata i results EmptyStr
  = join "" (imap (fun j item => csv_record (csv_row metadata (i + j) item)) results).
Proof.
  revert i. induction results as [|item rest IH]; intros i; [done|].
  cbn [write_rows imap]. rewrite write_rows_text, IH, join_empty_cons.
  unfold writerow. simpl. rewrite Nat.add_0_r. do 2 f_equal.
  apply imap_ext. intros j x _. simpl. do 2 f_equal. lia.
Qed.

Lemma append_if_cons (metadata : gmap pystr py_value) (key : pystr)
    (cell x : py_value) (cells : list py_value) :
  append_if metadata key cell (x :: cells) = x :: append_if metadata key cell cells.
Proof. unfold append_if. by destruct (truthy _). Qed.

Lemma csv_headers_shape (metadata : gmap pystr py_value) :
  exists cells, csv_headers metadata = PyStr "Index" :: PyStr "Value" :: cells.
Proof. unfold csv_headers. rewrite !append_if_cons. eauto. Qed.

(** A row starts with the position and the value; the cells after them come
    from the metadata alone. *)
Lemma csv_row_shape (metadata : gmap pystr py_value) :
  exists cells, forall (i : nat) (item : gmap pystr py_value),
    csv_row metadata i item
    = PyInt (Z.of_nat i + 1) :: dict_get_default item "value" (PyStr "") :: cells.
Proof. unfold csv_row. eexists. intros i item. rewrite !append_if_cons. done. Qed.

Lemma csv_row_same_value (metadata : gmap pystr py_value) (i : nat)
    (a b : gmap pystr py_value) :
  same_value a b -> csv_row metadata i a = csv_row metadata i b.
Proof. unfold same_value, csv_row, dict_get_default. by intros ->. Qed.

Lemma write_rows_same_value (metadata : gmap pystr py_value)
    (results results' : list (gmap pystr py_value)) (i : nat) (output : pystr) :
  Forall2 same_value results results' ->
  write_rows metadata i results output = write_rows metadata i results' output.
Proof.
  intros H. revert i output.
  induction H as [|a b rest rest' Hab _ IH]; intros i output; simpl; [done|].
  by rewrite (csv_row_same_value metadata i a b Hab), IH.
Qed.

Lemma has_special_uint (d : Decimal.uint) :
  has_special (of_string (NilEmpty.string_of_uint d)) = false.
Proof. induction d; simpl; done. Qed.

Lemma has_special_uint0 (d : Decimal.uint) :
  has_special (of_string (NilZero.string_of_uint d)) = false.
Proof. destruct d; try done; apply (has_special_uint (_ d)). Qed.

(** A number is written bare: its digits and its sign need no quotes. *)
Lemma csv_field_int (n : Z) : csv_field (PyInt n) = int_str n.
Proof.
  unfold csv_field. simpl.
  assert (H : has_special (int_str n) = false); [|by rewrite H].
  unfold int_str, NilZero.string_of_int.
  destruct (Z.to_int n) as [d|d]; [apply has_special_uint0|].
  cbn [of_string has_special]. rewrite has_special_uint0. done.
Qed.

Lemma to_string_of_string (s : string) : to_string (of_string s) = Some s.
Proof. induction s as [|c s IH]; simpl; [done|]. by rewrite IH. Qed.

(** The text of a number reads back as that number. *)
Lemma read_int_int_str (n : Z) : read_int (int_str n) = Some n.
Proof.
  unfold read_int, int_str. rewrite to_string_of_string, NilZero.isi.
  - simpl. f_equal. apply DecimalZ.of_to.
  - destruct n; simpl; try discriminate.
    intros [= H]. by apply DecimalPos.Unsigned.to_uint_nonnil in H.
  - destruct n; simpl; try discriminate.
    intros [= H]. by apply DecimalPos.Unsigned.to_uint_nonnil in H.
Qed.

(** [export_csv] never raises and asks nothing of the world but the time. *)
Lemma export_csv_runs (w : world) (results : list (gmap pystr py_value))
    (metadata : gmap pystr py_value) (s : state) :
  export_csv w results metadata s
  = (Return match results with
            | [] => NotExported "No data to export"
            | _ :: _ =>
                Exported
                  (csv_record (csv_headers metadata)
                     +:+ join "" (imap (fun i item => csv_record (csv_row metadata i item))
                                    results))
                  ("web_scraper_results_" +:+ int_str (time_time w (calls s) / 100)
                     +:+ ".csv")
            end, s).
Proof.
  unfold export_csv. run. destruct results as [|item rest]; [done|].
  rewrite write_rows_text, write_rows_records. done.
Qed.

Lemma header_record_starts (metadata : gmap pystr py_value) :
  exists tail, csv_record (csv_headers metadata) = "Index,Value" +:+ tail.
Proof.
  destruct (csv_headers_shape metadata) as [cells ->].
  unfold csv_record.
  destruct (join_cons_tail "," (csv_field (PyStr "Value")) (map csv_field cells))
    as [tail Htail].
  exists (tail +:+ crlf). cbn [map]. rewrite join_cons_cons, Htail.
  change (csv_field (PyStr "Index")) with ("Index" : pystr).
  change (csv_field (PyStr "Value")) with ("Value" : pystr).
  by rewrite !append_assoc.
Qed.

Lemma row_record_starts (metadata : gmap pystr py_value) (i : nat)
    (item : gmap pystr py_value) :
  exists tail,
    csv_record (csv_row metadata i item) = int_str (Z.of_nat i + 1) +:+ "," +:+ tail.
Proof.
  destruct (csv_row_shape metadata) as [cells Hrow]. rewrite Hrow.
  unfold csv_record. cbn [map]. rewrite join_cons_cons, csv_field_int.
  eexists. by rewrite !append_assoc.
Qed.

(** C9. Whatever the call, the Export Formatter answers with the error
    "No data to export" exactly when the result list is empty, and that
    answer carries no text; for a list that is not empty it answers with the
    delimited text, which is the header record, starting with the columns
    Index and Value, followed by one record per result. *)
Theorem export_csv_fails_iff_no_results
    (w : world) (results : list (gmap pystr py_value))
    (metadata : gmap pystr py_value) (s : state) :
  exists out,
    export_csv w results metadata s = (Return out, s)
    /\ (results = [] <-> out = NotExported "No data to export")
    /\ match out with
       | NotExported error => results = [] /\ error = "No data to export"
       | Exported csv_content filename =>
           results <> []
           /\ csv_content
              = csv_record (csv_headers metadata)
                  +:+ join "" (imap (fun i item => csv_record (csv_row metadata i item))
                                 results)
           /\ exists tail, csv_content = "Index,Value" +:+ tail
       end.
Proof.
  rewrite export_csv_runs. eexists. split; [done|].
  destruct results as [|item rest]; [done|].
  split; [done|]. split; [done|]. split; [done|].
  destruct (header_record_starts metadata) as [tail ->].
  eexists. by rewrite append_assoc.
Qed.

(** C10. For a result list that is not empty, the record written for the
    result at position i (counting from 0) starts with a cell that is the
    decimal numeral of i + 1, the place of the row in the list counted from
    1, and the text exported depends on the records through their values
    only: a list whose records carry other index fields, or none, exports
    the same text. *)
Theorem export_index_is_row_position
    (w : world) (results results' : list (gmap pystr py_value))
    (metadata : gmap pystr py_value) (s : state) :
  results <> [] ->
  Forall2 same_value results results' ->
  export_csv w results' metadata s = export_csv w results metadata s
  /\ exists filename,
       (export_csv w results metadata s).1
       = Return (Exported
                   (csv_record (csv_headers metadata)
                      +:+ join "" (imap (fun i item => csv_record (csv_row metadata i item))
                                     results))
                   filename)
       /\ forall (i : nat) (item : gmap pystr py_value),
            results !! i = Some item ->
            exists index_cell tail,
              csv_record (csv_row metadata i item) = index_cell +:+ "," +:+ tail
              /\ read_int index_cell = Some (Z.of_nat i + 1).
Proof.
  intros Hne Hsame. split.
  - unfold export_csv, try_except.
    destruct Hsame as [|a b rest rest' Hab Hrest]; [done|].
    unfold mbind, M_bind, now, mret, M_ret. cbn [write_rows].
    rewrite (csv_row_same_value metadata 0 b a) by done.
    by rewrite (write_rows_same_value metadata rest' rest)
      by (eapply Forall2_flip, Forall2_impl; [exact Hrest|done]).
  - rewrite export_csv_runs. destruct results as [|item rest]; [done|].
    eexists. split; [done|]. intros i x _.
    destruct (row_record_starts metadata i x) as [tail Htail].
    eexists _, tail. split; [exact Htail|]. apply read_int_int_str.
Qed.

Lemma export_index_is_row_position_witness :
  export_csv static_site odd_results url_metadata initial
  = export_csv static_site tidy_results url_metadata initial
  /\ exists filename,
       (export_csv static_site tidy_results url_metadata initial).1
       = Return (Exported
                   (csv_record (csv_headers url_metadata)
                      +:+ join "" (imap (fun i item => csv_record (csv_row url_metadata i item))
                                     tidy_results))
                   filename)
       /\ forall (i : nat) (item : gmap pystr py_value),
            tidy_results !! i = Some item ->
            exists index_cell tail,
              csv_record (csv_row url_metadata i item) = index_cell +:+ "," +:+ tail
              /\ read_int index_cell = Some (Z.of_nat i + 1).
Proof.
  apply (export_index_is_row_position static_site tidy_results odd_results
           url_metadata initial).
  - discriminate.
  - repeat constructor; reflexivity.
Defined.

Example export_ex :
  (export_csv static_site odd_results url_metadata initial).1
  = Return (Exported
              ("Index,Value,Source URL" +:+ crlf
               +:+ "1,Hello,https://example.com" +:+ crlf
               +:+ "2," +:+ Str (Latin1 dquote) ("a,b" +:+ Str (Latin1 dquote) ",https://example.com")
               +:+ crlf
               +:+ "3,,https://example.com" +:+ crlf)
              "web_scraper_results_0.csv").
Proof. vm_compute. reflexivity. Qed.

Example export_nothing_ex :
  (export_csv static_site [] url_metadata initial).1
  = Return (NotExported "No data to export").
Proof. reflexivity. Qed.

Example read_int_ex : read_int "12" = Some 12 /\ read_int "" = None /\ read_int "1x" = None.
Proof. repeat split; reflexivity. Qed.

(** ** The columns of an export *)

(** X18. The header of an export is Index, Value and then one column for
    each of url, selector, attribute and method that the metadata holds
    with a value that is true, in that order; every row has the position,
    the value and then the metadata values of these same columns, so rows
    and header have the same number of cells. *)
Theorem export_columns_follow_metadata (metadata : gmap pystr py_value) :
  csv_headers metadata
  = PyStr "Index" :: PyStr "Value" :: map (fun c => PyStr c.2) (shown_columns metadata)
  /\ forall (i : nat) (item : gmap pystr py_value),
       csv_row metadata i item
       = PyInt (Z.of_nat i + 1) :: dict_get_default item "value" (PyStr "")
           :: map (fun c => dict_get metadata c.1) (shown_columns metadata)
       /\ length (csv_row metadata i item) = length (csv_headers metadata).
Proof.
  unfold csv_headers, csv_row, shown_columns, metadata_columns, append_if. simpl.
  destruct (truthy (dict_get metadata "url")),
           (truthy (dict_get metadata "selector")),
           (truthy (dict_get metadata "attribute")),
           (truthy (dict_get metadata "method")); simpl; by repeat split.
Qed.

(** ** [validate_url] *)

(** X19. [validate_url] reports a URL as valid whenever the HEAD request
    returns, with the status as received and "Unknown" for a missing content
    type; it does not look at the status.  A URL it reports valid with a
    status from 400 to 599 is therefore one that [scrape_beautifulsoup]
    answers with a network error when the page comes back with that
    status. *)
Theorem validated_url_may_fail_to_scrape
    (requests_head : py_value -> outcome head_response)
    (w : world) (data : gmap pystr py_value) (s : state)
    (head : head_response) (page : http_response) :
  prints (py_str (dict_get data "url")) = true ->
  requests_head (dict_get data "url") = Return head ->
  requests_get w (dict_get data "url") = Return page ->
  status_code page = head_status head ->
  400 <= head_status head < 600 ->
  validate_url requests_head data
  = Valid (head_status head) (default "Unknown" (head_headers head !! "content-type"))
  /\ exists detail,
       (scrape_beautifulsoup w data s).1
       = Return (Failure ("Network error: " +:+ int_str (head_status head) +:+ detail)
                   "Beautiful Soup").
Proof.
  intros Hurl%negb_true_iff Hhead Hget Hsame Hstatus. split.
  - unfold validate_url. by rewrite Hhead.
  - unfold scrape_beautifulsoup. rewrite print_beautifulsoup_banner, Hurl. run.
    rewrite Hget. simpl.
    unfold raise_for_status. rewrite Hsame.
    destruct (head_status head <? 500) eqn:Hlt.
    + replace (400 <=? head_status head) with true by lia. simpl. eauto.
    + replace (400 <=? head_status head) with true by lia.
      replace (500 <=? head_status head) with true by lia.
      replace (head_status head <? 600) with true by lia. simpl. eauto.
Qed.

Lemma validated_url_may_fail_to_scrape_witness :
  validate_url head_not_found h1_request
  = Valid (head_status (MkHeadResponse 404 ∅))
      (default "Unknown" (head_headers (MkHeadResponse 404 ∅) !! "content-type"))
  /\ exists detail,
       (scrape_beautifulsoup not_found_site h1_request initial).1
       = Return (Failure ("Network error: "
                            +:+ int_str (head_status (MkHeadResponse 404 ∅)) +:+ detail)
                   "Beautiful Soup").
Proof.
  apply (validated_url_may_fail_to_scrape head_not_found not_found_site h1_request initial
           (MkHeadResponse 404 ∅)
           (MkHttpResponse 404 "Not Found" "https://example.com/missing" "")).
  - reflexivity.
  - reflexivity.
  - reflexivity.
  - reflexivity.
  - simpl. lia.
Defined.

Example validate_ex :
  validate_url head_not_found h1_request = Valid 404 "Unknown".
Proof. reflexivity. Qed.
